(** * Cost analytics core: trends, anomalies, forecasts, drivers, elasticity, ROI

    A shallow embedding of the analyses of [DataProcessor]
    (data_processor.py: trends, anomalies, simple forecast, service
    distribution, summary statistics) and of the static methods of
    [AdvancedAnalytics] (advanced_analytics.py), followed by the properties
    established for them.

    Conventions of the embedding:
    - a DataFrame of observations is the list of its rows, in row order;
    - Python exceptions are values of [exn], carried by the [result] monad;
      a [try: ... except Exception: return d] block is [try_except body d];
    - float64 values are exact rationals extended with the IEEE special
      values [PosInf], [NegInf] and [NaN]; signed zeros are not represented.
      The array arithmetic of numpy and pandas is taken exactly; the scalar
      arithmetic of [calculate_roi_for_optimization] is modelled with
      binary64 rounding ([round64]), overflow to infinity included;
    - a calendar date is its day number; [d + timedelta(days=i)] is [d + i]
      when that day is representable and raises otherwise ([add_days]);
    - numpy's square root, scipy's normal quantile, scikit-learn's
      isolation forest and the range of the date type are gathered in the
      class [Runtime]. *)

From Stdlib Require Import ZArith QArith Qabs Qround List String Bool Lia Lqa.
From Stdlib Require Import Sorted.
Import ListNotations.

Local Open Scope Z_scope.
Local Abbreviation length := List.length.

(** ** Python exceptions and the error monad *)

Inductive exn : Type :=
| ValueError
| TypeError
| IndexError
| LinAlgError
| OverflowError.

Inductive result (A : Type) : Type :=
| Ok (a : A)
| Raise (e : exn).

Arguments Ok {A} a.
Arguments Raise {A} e.

Definition bind {A B : Type} (c : result A) (k : A -> result B) : result B :=
  match c with
  | Ok a => k a
  | Raise e => Raise e
  end.

Notation "x <- c ;; k" := (bind c (fun x => k))
  (at level 61, c at next level, right associativity).
Notation "' pat <- c ;; k" := (bind c (fun x => match x with pat => k end))
  (at level 61, pat pattern, c at next level, right associativity).

(** [try: body / except Exception: return default]. *)
Definition try_except {A : Type} (body : result A) (default : A) : A :=
  match body with
  | Ok a => a
  | Raise _ => default
  end.

(** ** Floating-point values *)

Inductive float : Type :=
| Fin (q : Q)
| PosInf
| NegInf
| NaN.

Definition Qltb (a b : Q) : bool := negb (Qle_bool b a).

Definition fsgn (x : float) : Z :=
  match x with
  | Fin q => Z.sgn (Qnum q)
  | PosInf => 1
  | NegInf => -1
  | NaN => 0
  end.

Definition inf_of_sign (s : Z) : float :=
  match s with
  | Z0 => NaN
  | Zpos _ => PosInf
  | Zneg _ => NegInf
  end.

Definition fneg (x : float) : float :=
  match x with
  | Fin q => Fin (- q)
  | PosInf => NegInf
  | NegInf => PosInf
  | NaN => NaN
  end.

Definition fadd (x y : float) : float :=
  match x, y with
  | NaN, _ | _, NaN => NaN
  | Fin a, Fin b => Fin (a + b)
  | PosInf, NegInf | NegInf, PosInf => NaN
  | PosInf, _ | _, PosInf => PosInf
  | NegInf, _ | _, NegInf => NegInf
  end.

Definition fsub (x y : float) : float := fadd x (fneg y).

Definition fmul (x y : float) : float :=
  match x, y with
  | NaN, _ | _, NaN => NaN
  | Fin a, Fin b => Fin (a * b)
  | _, _ => inf_of_sign (fsgn x * fsgn y)
  end.

(** numpy division: [x/0] is an infinity of the sign of [x], [0/0] is NaN. *)
Definition fdiv (x y : float) : float :=
  match x, y with
  | NaN, _ | _, NaN => NaN
  | Fin a, Fin b => if Qeq_bool b 0 then inf_of_sign (fsgn x) else Fin (a / b)
  | Fin _, _ => Fin 0
  | _, Fin b => inf_of_sign (fsgn x * (if Qeq_bool b 0 then 1 else fsgn y))
  | _, _ => NaN
  end.

Definition fabs (x : float) : float :=
  match x with
  | Fin q => Fin (Qabs q)
  | PosInf | NegInf => PosInf
  | NaN => NaN
  end.

(** Comparisons: every ordered comparison with NaN is false, [!=] is true. *)
Definition flt (x y : float) : bool :=
  match x, y with
  | NaN, _ | _, NaN => false
  | Fin a, Fin b => Qltb a b
  | NegInf, NegInf => false
  | NegInf, _ => true
  | _, PosInf => match x with PosInf => false | _ => true end
  | _, _ => false
  end.

Definition feqb (x y : float) : bool :=
  match x, y with
  | Fin a, Fin b => Qeq_bool a b
  | PosInf, PosInf | NegInf, NegInf => true
  | _, _ => false
  end.

Definition fle (x y : float) : bool := flt x y || feqb x y.
Definition fgt (x y : float) : bool := flt y x.
Definition fneb (x y : float) : bool := negb (feqb x y).

Definition isnan (x : float) : bool :=
  match x with NaN => true | _ => false end.

(** Two floats denote the same value (NaN is only the same as NaN). *)
Definition same_value (x y : float) : Prop :=
  match x, y with
  | Fin a, Fin b => (a == b)%Q
  | PosInf, PosInf | NegInf, NegInf | NaN, NaN => True
  | _, _ => False
  end.

Definition of_Z (z : Z) : float := Fin (inject_Z z).
Definition of_nat (n : nat) : float := Fin (inject_Z (Z.of_nat n)).

(** Python's builtin [max(0, x)]: the first argument is kept unless the
    second compares greater; [float(...)] of the integer [0] is [0.0]. *)
Definition py_max0 (x : float) : float :=
  if fgt x (Fin 0) then x else Fin 0.

(** ** Binary64 rounding

    [round64 q] is the float64 nearest to the rational [q], ties to even,
    with gradual underflow and overflow to an infinity. The basic
    operations of IEEE 754 are the exact operations followed by this
    rounding. *)

Definition pow2 (e : Z) : Q := Qpower 2 e.

(** The integer part of the binary logarithm of [|q|], for [q <> 0]. *)
Definition ilog2 (q : Q) : Z :=
  let e0 := Z.log2 (Z.abs (Qnum q)) - Z.log2 (Zpos (Qden q)) in
  if Qle_bool (pow2 e0) (Qabs q) then e0 else e0 - 1.

Definition round_half_even (x : Q) : Z :=
  let f := Qfloor x in
  match Qcompare (x - inject_Z f) (1 # 2) with
  | Lt => f
  | Gt => f + 1
  | Eq => if Z.even f then f else f + 1
  end.

Definition round64 (q : Q) : float :=
  if Qeq_bool q 0 then Fin 0
  else
    let e := Z.max (ilog2 q) (-1022) in
    let ulp := pow2 (e - 52) in
    let v := (inject_Z (round_half_even (Qabs q / ulp)) * ulp)%Q in
    if Qle_bool (pow2 1024) v
    then (if 0 <? Qnum q then PosInf else NegInf)
    else Fin (Qred (if 0 <? Qnum q then v else - v)).

Definition rnd (x : float) : float :=
  match x with
  | Fin q => round64 q
  | _ => x
  end.

Definition add64 (x y : float) : float := rnd (fadd x y).


(** ** Library primitives *)

Class Runtime : Type := {
  (** [numpy.sqrt] *)
  np_sqrt : float -> float;
  (** [scipy.stats.norm.ppf] *)
  norm_ppf : float -> float;
  (** [IsolationForest(contamination=c, random_state=42).fit_predict(costs)];
      [None] when importing scikit-learn raises ImportError. *)
  IsolationForest : option (Q -> list Q -> result (list Z));
  (** Whether a day number is within the range of the date type in use
      (pandas' Timestamp ends in the year 2262). *)
  date_in_range : Z -> bool
}.

(** [d + timedelta(days=i)]: the sum when it is a representable date; past
    the range of the date type the addition raises (OverflowError, or
    pandas' OutOfBoundsDatetime) instead of returning. *)
Definition add_days `{Runtime} (d i : Z) : result Z :=
  if date_in_range (d + i) then Ok (d + i) else Raise OverflowError.

(** ** Sequences and array helpers *)

Definition Qsum (xs : list Q) : Q := fold_left Qplus xs 0%Q.

Definition fsum (xs : list float) : float := fold_left fadd xs (Fin 0).

(** [s.iloc[0]] and [s.iloc[-1]] (also [index[-1]]). *)
Definition iloc_first {A : Type} (xs : list A) : result A :=
  match xs with
  | [] => Raise IndexError
  | x :: _ => Ok x
  end.

Definition iloc_last {A : Type} (xs : list A) : result A :=
  match rev xs with
  | [] => Raise IndexError
  | x :: _ => Ok x
  end.

(** [a[idx]] for a non-negative index. *)
Definition getitem {A : Type} (xs : list A) (idx : nat) : result A :=
  match nth_error xs idx with
  | Some x => Ok x
  | None => Raise IndexError
  end.

(** [np.where(mask)[0]]: the positions at which the mask holds. *)
Fixpoint where_from (i : nat) (mask : list bool) : list nat :=
  match mask with
  | [] => []
  | b :: rest => if b then i :: where_from (S i) rest else where_from (S i) rest
  end.

Definition np_where (mask : list bool) : list nat := where_from 0 mask.

(** [range(1, stop)] *)
Definition range1 (stop : Z) : list Z :=
  map (fun k => 1 + Z.of_nat k) (seq 0 (Z.to_nat (stop - 1))).

Fixpoint mapM {A B : Type} (f : A -> result B) (xs : list A) : result (list B) :=
  match xs with
  | [] => Ok []
  | x :: rest =>
      y <- f x ;;
      ys <- mapM f rest ;;
      Ok (y :: ys)
  end.

(** [np.mean], [np.std] (ddof 0) over an array of floats. *)
Definition np_mean (xs : list float) : float :=
  fdiv (fsum xs) (of_nat (length xs)).

Definition sq_dev (m x : float) : float := fmul (fsub x m) (fsub x m).

Definition np_std `{Runtime} (xs : list float) : float :=
  np_sqrt (np_mean (map (sq_dev (np_mean xs)) xs)).

(** pandas [Series.std()] (ddof 1): NaN when there are at most [ddof] values. *)
Definition pd_std `{Runtime} (xs : list float) : float :=
  if (length xs <=? 1)%nat then NaN
  else np_sqrt (fdiv (fsum (map (sq_dev (np_mean xs)) xs))
                     (of_nat (length xs - 1))).

(** Ascending sort of an array of rationals. *)
Fixpoint insert_sorted (x : Q) (xs : list Q) : list Q :=
  match xs with
  | [] => [x]
  | y :: rest => if Qle_bool x y then x :: xs else y :: insert_sorted x rest
  end.

Definition np_sort (xs : list Q) : list Q := fold_right insert_sorted [] xs.

(** [np.percentile(a, q)] with the default linear interpolation:
    the virtual index is [(n-1)*q/100], the value is interpolated between
    its two neighbours in the sorted array. *)
Definition np_percentile (xs : list Q) (q : Q) : float :=
  match xs with
  | [] => NaN
  | _ =>
      let sorted := np_sort xs in
      let n := length xs in
      let pos := ((inject_Z (Z.of_nat n) - 1) * q / 100)%Q in
      let lo := Z.to_nat (Qfloor pos) in
      let hi := Nat.min (S lo) (n - 1) in
      let a := nth lo sorted 0%Q in
      let b := nth hi sorted 0%Q in
      let gamma := (pos - inject_Z (Z.of_nat lo))%Q in
      Fin (a + gamma * (b - a))%Q
  end.

(** ** Observations and grouping *)

Module Observation.
Record t : Type := {
    date : Z;
    service : string;
    region : string;
    cost : Q;
    usage : Q
  }.
End Observation.

Definition DataFrame : Type := list Observation.t.

(** [df.empty] *)
Definition empty (df : DataFrame) : bool :=
  match df with [] => true | _ => false end.

Section GroupBy.
Context {K : Type} (kcmp : K -> K -> comparison).

  (** Adds one row to the table of groups, kept sorted by key. *)
Fixpoint insert_row (k : K) (o : Observation.t)
           (groups : list (K * list Observation.t)) : list (K * list Observation.t) :=
    match groups with
    | [] => [(k, [o])]
    | (k', rows) :: rest =>
        match kcmp k k' with
        | Lt => (k, [o]) :: groups
        | Eq => (k', o :: rows) :: rest
        | Gt => (k', rows) :: insert_row k o rest
        end
    end.

  (** [df.groupby(key)]: one group per distinct key, keys ascending,
      rows of a group in their original order. *)
Definition groupby (key : Observation.t -> K) (df : DataFrame)
    : list (K * list Observation.t) :=
    fold_right (fun o acc => insert_row (key o) o acc) [] df.
End GroupBy.

(** [df.groupby("date")[col].sum()] as a date-indexed series. *)
Definition daily_sum (col : Observation.t -> Q) (df : DataFrame) : list (Z * Q) :=
  map (fun g => (fst g, Qsum (map col (snd g)))) (groupby Z.compare Observation.date df).

Definition index {A B : Type} (s : list (A * B)) : list A := map fst s.
Definition values {A B : Type} (s : list (A * B)) : list B := map snd s.

(** ** data_processor.py : [DataProcessor.calculate_trends] *)

Module Trends.
Record t : Type := {
    trend : string;
    percentage_change : float;
    current_daily_cost : float;
    average_daily_cost : float;
    min_daily_cost : float;
    max_daily_cost : float
  }.
End Trends.

(** The rows of the window that ends at position [i]: the last [w] of the
    first [i+1] values. *)
Definition window_at (w : nat) (xs : list Q) (i : nat) : list Q :=
  skipn (i + 1 - w) (firstn (i + 1) xs).

(** [s.rolling(window=w).mean()]. pandas rejects a negative window with
    ValueError; [min_periods] defaults to the window size, so a position
    with fewer than [w] observations (or none) yields NaN. *)
Definition rolling_mean (w : Z) (xs : list Q) : result (list float) :=
  if w <? 0 then Raise ValueError
  else
    let wn := Z.to_nat w in
    Ok (map (fun i =>
               let win := window_at wn xs i in
               let nobs := length win in
               if (wn <=? nobs)%nat && (0 <? nobs)%nat
               then fdiv (Fin (Qsum win)) (of_nat nobs)
               else NaN)
            (seq 0 (length xs))).

Definition series_min (xs : list Q) : float :=
  match xs with
  | [] => NaN
  | x :: rest => Fin (fold_left (fun m y => if Qltb y m then y else m) rest x)
  end.

Definition series_max (xs : list Q) : float :=
  match xs with
  | [] => NaN
  | x :: rest => Fin (fold_left (fun m y => if Qltb m y then y else m) rest x)
  end.

Module DataProcessor.

Definition calculate_trends_body (cost_data : DataFrame) (window : Z)
  : result (option Trends.t) :=
  if empty cost_data then Ok None
  else
    let daily_costs := values (daily_sum Observation.cost cost_data) in
    rolling_avg <- rolling_mean window daily_costs ;;
    last <- iloc_last daily_costs ;;
    first <- iloc_first daily_costs ;;
    let trend := if Qltb first last then "increasing"%string
                 else "decreasing"%string in
    let pct_change :=
      if negb (Qeq_bool first 0)
      then fmul (fdiv (fsub (Fin last) (Fin first)) (Fin first)) (of_Z 100)
      else of_Z 0 in
    avg <- iloc_last rolling_avg ;;
    Ok (Some {| Trends.trend := trend;
                Trends.percentage_change := pct_change;
                Trends.current_daily_cost := Fin last;
                Trends.average_daily_cost := avg;
                Trends.min_daily_cost := series_min daily_costs;
                Trends.max_daily_cost := series_max daily_costs |}).

(** The returned dictionary; [None] is the empty dictionary. *)
Definition calculate_trends (cost_data : DataFrame) (window : Z)
  : option Trends.t :=
  try_except (calculate_trends_body cost_data window) None.

End DataProcessor.

(** ** advanced_analytics.py : [AdvancedAnalytics] *)

Module Anomaly.
Record t : Type := {
    date : Z;
    cost : float;
    method : string;
    severity : string
  }.
End Anomaly.

Module Elasticity.
Record t : Type := {
    elasticity : float;
    cost_volatility : float;
    usage_volatility : float;
    correlation : float;
    service : string
  }.
End Elasticity.

Module Forecast.
Record t : Type := {
    date : Z;
    forecasted_cost : float;
    lower_bound : float;
    upper_bound : float;
    confidence : Q
  }.
End Forecast.

Module CostDriver.
Record t : Type := {
    service : string;
    region : string;
    total_cost : float;
    percentage : float;
    cumulative_percentage : float;
    cost_per_unit : float;
    volatility : float
  }.
End CostDriver.

Module Roi.
Record t : Type := {
    roi_percentage : float;
    total_savings : float;
    net_benefit : float;
    payback_period_months : option float;
    analysis_period_months : Z;
    monthly_savings : float
  }.
End Roi.

(** [scipy.stats.zscore(a)] with the default [ddof=0]. *)
Definition zscore `{Runtime} (a : list float) : list float :=
  let mn := np_mean a in
  let std := np_std a in
  map (fun x => fdiv (fsub x mn) std) a.

(** Positions outside [[Q1 - 1.5 IQR, Q3 + 1.5 IQR]]. *)
Definition iqr_indices (costs : list Q) : list nat :=
  let Q1 := np_percentile costs 25 in
  let Q3 := np_percentile costs 75 in
  let IQR := fsub Q3 Q1 in
  let lower_bound := fsub Q1 (fmul (Fin 1.5) IQR) in
  let upper_bound := fadd Q3 (fmul (Fin 1.5) IQR) in
  np_where (map (fun c => flt (Fin c) lower_bound || fgt (Fin c) upper_bound)
                costs).

(** [s.pct_change()]: NaN at the first position, then [x_i / x_(i-1) - 1]. *)
Fixpoint pct_change_from (prev : Q) (xs : list Q) : list float :=
  match xs with
  | [] => []
  | x :: rest =>
      fsub (fdiv (Fin x) (Fin prev)) (Fin 1) :: pct_change_from x rest
  end.

Definition pct_change (xs : list Q) : list float :=
  match xs with
  | [] => []
  | x :: rest => NaN :: pct_change_from x rest
  end.

Definition dropna (xs : list float) : list float :=
  filter (fun x => negb (isnan x)) xs.

(** [a.corr(b)] (Pearson) for two series on the same index: NaN on an
    empty series, else [np.corrcoef]: the covariance with [ddof=1], divided
    by both standard deviations and clipped to [[-1, 1]]. *)
Definition clip_unit (x : float) : float :=
  if flt x (of_Z (-1)) then of_Z (-1)
  else if fgt x (of_Z 1) then of_Z 1 else x.

Definition corr `{Runtime} (a b : list Q) : float :=
  match a with
  | [] => NaN
  | _ =>
      let fa := map Fin a in
      let fb := map Fin b in
      let ma := np_mean fa in
      let mb := np_mean fb in
      let fact := fdiv (of_Z 1) (of_nat (length a - 1)) in
      let cov x mx y my :=
        fmul (fsum (map (fun p => fmul (fsub (fst p) mx) (fsub (snd p) my))
                        (combine x y))) fact in
      let c01 := cov fa ma fb mb in
      let sa := np_sqrt (cov fa ma fa ma) in
      let sb := np_sqrt (cov fb mb fb mb) in
      clip_unit (fdiv (fdiv c01 sa) sb)
  end.

(** [np.polyfit(np.arange(n), y, 1)] for [n = len(y)], as the slope and the
    intercept. numpy rejects an empty abscissa vector with TypeError. It
    then divides each column of the Vandermonde matrix by its Euclidean
    norm before calling [lstsq]; for a single point the abscissa column is
    [[0]], of norm 0, the scaled matrix holds NaN, and [lstsq] raises
    LinAlgError. With two or more points the columns are independent and
    the result is the least-squares line. *)
Definition arange (n : nat) : list Q :=
  map (fun i => inject_Z (Z.of_nat i)) (seq 0 n).

Definition dot (xs ys : list Q) : Q :=
  Qsum (map (fun p => fst p * snd p)%Q (combine xs ys)).

Definition polyfit1 (y : list Q) : result (Q * Q) :=
  let x := arange (length y) in
  match y with
  | [] => Raise TypeError
  | _ =>
      if Qeq_bool (dot x x) 0 then Raise LinAlgError
      else
        let n := inject_Z (Z.of_nat (length y)) in
        let sx := Qsum x in
        let sy := Qsum y in
        let slope := ((n * dot x y - sx * sy) / (n * dot x x - sx * sx))%Q in
        let intercept := ((sy - slope * sx) / n)%Q in
        Ok (slope, intercept)
  end.

(** [np.poly1d(coeffs)(x)] *)
Definition poly (coeffs : Q * Q) (x : Q) : Q :=
  (fst coeffs * x + snd coeffs)%Q.

(** Python's truth value of a pandas Series ([if series: ...]):
    [NDFrame.__bool__] raises ValueError whatever the series holds. *)
Definition series_truth (s : list bool) : result bool := Raise ValueError.

(** Lexicographic order on the [(service, region)] group keys. *)
Definition pair_compare (a b : string * string) : comparison :=
  match String.compare (fst a) (fst b) with
  | Eq => String.compare (snd a) (snd b)
  | c => c
  end.

(** One row of the [drivers] frame, with the columns in the order in which
    the source creates them. *)
Record DriverRow : Type := {
  d_service : string;
  d_region : string;
  d_total_cost : float;
  d_avg_cost : float;
  d_std_cost : float;
  d_total_usage : float;
  d_percentage : float;
  d_cumulative_percentage : float;
  d_cost_per_unit : float
}.

(** [s.cumsum()] *)
Fixpoint cumsum_from (acc : float) (xs : list float) : list float :=
  match xs with
  | [] => []
  | x :: rest => let acc' := fadd acc x in acc' :: cumsum_from acc' rest
  end.

Definition cumsum (xs : list float) : list float := cumsum_from (Fin 0) xs.

(** [df.sort_values("total_cost", ascending=False)]: rows by descending
    total cost, NaN last. *)
Fixpoint insert_desc (r : DriverRow) (rs : list DriverRow) : list DriverRow :=
  match rs with
  | [] => [r]
  | r' :: rest =>
      if flt (d_total_cost r') (d_total_cost r) || isnan (d_total_cost r')
      then r :: rs
      else r' :: insert_desc r rest
  end.

Definition sort_values_desc (rs : list DriverRow) : list DriverRow :=
  fold_right insert_desc [] rs.

(** [df.head(n)]: the first [n] rows, or all but the last [-n] for [n < 0]. *)
Definition head {A : Type} (n : Z) (rows : list A) : list A :=
  if 0 <=? n then firstn (Z.to_nat n) rows
  else firstn (length rows - Z.to_nat (- n)) rows.

(** [if service:] holds for a given, non-empty service name. *)
Definition given (service : option string) : option string :=
  match service with
  | Some s => if String.eqb s "" then None else Some s
  | None => None
  end.

(** [cost_data[cost_data["service"] == service]] when a service is given,
    the whole frame otherwise. *)
Definition filter_service (service : option string) (cost_data : DataFrame)
  : DataFrame :=
  match given service with
  | Some s => filter (fun o => String.eqb (Observation.service o) s) cost_data
  | None => cost_data
  end.

(** [service or "all"] *)
Definition service_or_all (service : option string) : string :=
  match given service with
  | Some s => s
  | None => "all"%string
  end.

(** [y - poly(x)] for [x = np.arange(len(y))]. *)
Definition residuals (coeffs : Q * Q) (y : list Q) : list float :=
  map (fun p => Fin (snd p - poly coeffs (fst p))%Q)
      (combine (arange (length y)) y).

(** [z_score * residual_std * np.sqrt(1 + 1/n)] *)
Definition margin `{Runtime} (z_score residual_std : float) (n : nat) : float :=
  fmul (fmul z_score residual_std)
       (np_sqrt (fadd (of_Z 1) (fdiv (of_Z 1) (of_nat n)))).

Module AdvancedAnalytics.
Section WithRuntime.
Context `{Runtime}.

(** *** detect_cost_anomalies_advanced *)

Definition detect_cost_anomalies_advanced_body
           (cost_data : DataFrame) (method : string) (contamination : Q)
  : result (list Anomaly.t) :=
  if empty cost_data then Ok []
  else
    let daily_costs := daily_sum Observation.cost cost_data in
    let costs := values daily_costs in
    anomaly_indices <-
      (if String.eqb method "zscore" then
         let z_scores := map fabs (zscore (map Fin costs)) in
         let threshold := of_Z 3 in
         Ok (np_where (map (fun z => fgt z threshold) z_scores))
       else if String.eqb method "iqr" then
         Ok (iqr_indices costs)
       else
         match IsolationForest with
         | Some fit_predict =>
             predictions <- fit_predict contamination costs ;;
             Ok (np_where (map (fun p => p =? -1) predictions))
         | None =>
             Ok (iqr_indices costs)
         end) ;;
    let dates := index daily_costs in
    mapM (fun idx =>
            d <- getitem dates idx ;;
            c <- getitem costs idx ;;
            Ok {| Anomaly.date := d;
                  Anomaly.cost := Fin c;
                  Anomaly.method := method;
                  Anomaly.severity :=
                    if fgt (Fin c) (fmul (np_mean (map Fin costs)) (Fin 1.5))
                    then "high"%string else "medium"%string |})
         anomaly_indices.

Definition detect_cost_anomalies_advanced
           (cost_data : DataFrame) (method : string) (contamination : Q)
  : list Anomaly.t :=
  try_except
    (detect_cost_anomalies_advanced_body cost_data method contamination) [].

(** *** calculate_cost_elasticity *)

Definition calculate_cost_elasticity_body
           (cost_data : DataFrame) (service : option string)
  : result (option Elasticity.t) :=
  if empty cost_data then Ok None
  else
    let data := filter_service service cost_data in
    if empty data then Ok None
    else
      let daily_costs := values (daily_sum Observation.cost data) in
      let daily_usage := values (daily_sum Observation.usage data) in
      let cost_pct_change := dropna (pct_change daily_costs) in
      let usage_pct_change := dropna (pct_change daily_usage) in
      let elasticity :=
        if (0 <? length cost_pct_change)%nat
           && (0 <? length usage_pct_change)%nat
        then
          if fneb (np_mean usage_pct_change) (of_Z 0)
          then fdiv (np_mean cost_pct_change) (np_mean usage_pct_change)
          else of_Z 0
        else of_Z 0 in
      Ok (Some {| Elasticity.elasticity := elasticity;
                  Elasticity.cost_volatility := pd_std cost_pct_change;
                  Elasticity.usage_volatility := pd_std usage_pct_change;
                  Elasticity.correlation := corr daily_costs daily_usage;
                  Elasticity.service := service_or_all service |}).

Definition calculate_cost_elasticity
           (cost_data : DataFrame) (service : option string)
  : option Elasticity.t :=
  try_except (calculate_cost_elasticity_body cost_data service) None.

(** *** forecast_with_confidence_intervals *)

Definition forecast_with_confidence_intervals_body
           (cost_data : DataFrame) (days_ahead : Z) (confidence : Q)
  : result (list Forecast.t) :=
  if empty cost_data then Ok []
  else
    let daily_costs := daily_sum Observation.cost cost_data in
    let n := length daily_costs in
    let y := values daily_costs in
    coeffs <- polyfit1 y ;;
    let residual_std := np_std (residuals coeffs y) in
    let z_score := norm_ppf (Fin ((1 + confidence) / 2)%Q) in
    last_date <- iloc_last (index daily_costs) ;;
    mapM (fun i =>
            forecast_date <- add_days last_date i ;;
            let forecast_value :=
              Fin (poly coeffs (inject_Z (Z.of_nat n + i - 1))) in
            let margin_of_error := margin z_score residual_std n in
            let lower_bound := py_max0 (fsub forecast_value margin_of_error) in
            let upper_bound := fadd forecast_value margin_of_error in
            Ok {| Forecast.date := forecast_date;
                  Forecast.forecasted_cost := forecast_value;
                  Forecast.lower_bound := lower_bound;
                  Forecast.upper_bound := upper_bound;
                  Forecast.confidence := confidence |})
         (range1 (days_ahead + 1)).

Definition forecast_with_confidence_intervals
           (cost_data : DataFrame) (days_ahead : Z) (confidence : Q)
  : list Forecast.t :=
  try_except
    (forecast_with_confidence_intervals_body cost_data days_ahead confidence) [].

(** *** identify_cost_drivers *)

(** [groupby(["service", "region"]).agg(...).reset_index()] with the six
    renamed columns; the later columns are filled in by [with_metrics]. *)
Definition aggregate (cost_data : DataFrame) : list DriverRow :=
  map (fun g =>
         let costs := map (fun o => Fin (Observation.cost o)) (snd g) in
         let usages := map (fun o => Fin (Observation.usage o)) (snd g) in
         {| d_service := fst (fst g);
            d_region := snd (fst g);
            d_total_cost := fsum costs;
            d_avg_cost := np_mean costs;
            d_std_cost := pd_std costs;
            d_total_usage := fsum usages;
            d_percentage := NaN;
            d_cumulative_percentage := NaN;
            d_cost_per_unit := NaN |})
      (groupby pair_compare
               (fun o => (Observation.service o, Observation.region o))
               cost_data).

Definition with_metrics (rows : list DriverRow)
           (pct cum cpu : list float) : list DriverRow :=
  map (fun q =>
         let r := fst (fst (fst q)) in
         {| d_service := d_service r;
            d_region := d_region r;
            d_total_cost := d_total_cost r;
            d_avg_cost := d_avg_cost r;
            d_std_cost := d_std_cost r;
            d_total_usage := d_total_usage r;
            d_percentage := snd (fst (fst q));
            d_cumulative_percentage := snd (fst q);
            d_cost_per_unit := snd q |})
      (combine (combine (combine rows pct) cum) cpu).

Definition identify_cost_drivers_body (cost_data : DataFrame) (top_n : Z)
  : result (list CostDriver.t) :=
  if empty cost_data then Ok []
  else
    let drivers := aggregate cost_data in
    let total_cost := fsum (map d_total_cost drivers) in
    let percentage :=
      if fgt total_cost (of_Z 0)
      then map (fun r => fmul (fdiv (d_total_cost r) total_cost) (of_Z 100))
               drivers
      else map (fun _ => of_Z 0) drivers in
    let cumulative_percentage := cumsum percentage in
    usage_positive <-
      series_truth (map (fun r => fgt (d_total_usage r) (of_Z 0)) drivers) ;;
    let cost_per_unit :=
      if usage_positive : bool
      then map (fun r => fdiv (d_total_cost r) (d_total_usage r)) drivers
      else map (fun _ => of_Z 0) drivers in
    let drivers :=
      head top_n
           (sort_values_desc
              (with_metrics drivers percentage cumulative_percentage
                            cost_per_unit)) in
    Ok (map (fun row =>
               {| CostDriver.service := d_service row;
                  CostDriver.region := d_region row;
                  CostDriver.total_cost := d_total_cost row;
                  CostDriver.percentage := d_percentage row;
                  CostDriver.cumulative_percentage := d_cumulative_percentage row;
                  CostDriver.cost_per_unit := d_cost_per_unit row;
                  CostDriver.volatility := d_std_cost row |})
            drivers).

Definition identify_cost_drivers (cost_data : DataFrame) (top_n : Z)
  : list CostDriver.t :=
  try_except (identify_cost_drivers_body cost_data top_n) [].

(** *** calculate_roi_for_optimization *)



End WithRuntime.
End AdvancedAnalytics.

(** ** A concrete runtime for evaluating examples

    Square roots truncated to nine decimal places, the normal quantile at
    the usual two-sided levels, no scikit-learn, and dates counted in days
    from 1970-01-01 within the range of pandas' Timestamp. *)

Definition sqrt_approx (x : float) : float :=
  match x with
  | Fin q =>
      if Qltb q 0 then NaN
      else Fin (inject_Z (Z.sqrt (Qfloor (q * inject_Z (10 ^ 18))))
                / inject_Z (10 ^ 9))%Q
  | PosInf => PosInf
  | NegInf | NaN => NaN
  end.

Definition ppf_table (p : float) : float :=
  match p with
  | Fin q =>
      if Qeq_bool q 0.5 then Fin 0
      else if Qeq_bool q 0.95 then Fin 1.644854
      else if Qeq_bool q 0.975 then Fin 1.959964
      else if Qeq_bool q 0.995 then Fin 2.575829
      else NaN
  | _ => NaN
  end.

Definition sample_runtime : Runtime :=
  {| np_sqrt := sqrt_approx;
     norm_ppf := ppf_table;
     IsolationForest := None;
     date_in_range := fun d => (-106752 <=? d) && (d <=? 106751) |}.

(** One observation of the service EC2 in us-east-1. *)
Definition obs (day : Z) (c u : Q) : Observation.t :=
  {| Observation.date := day;
     Observation.service := "EC2";
     Observation.region := "us-east-1";
     Observation.cost := c;
     Observation.usage := u |}.

(** The daily series [100, 90, 80]. *)
Definition series_100_90_80 : DataFrame :=
  [obs 1 100 50; obs 2 90 45; obs 3 80 40].

(** Two groups with totals 700 and 300. *)
Definition two_groups_700_300 : DataFrame :=
  [ {| Observation.date := 1; Observation.service := "EC2";
       Observation.region := "us-east-1";
       Observation.cost := 700; Observation.usage := 70 |};
    {| Observation.date := 1; Observation.service := "S3";
       Observation.region := "us-east-1";
       Observation.cost := 300; Observation.usage := 30 |} ].

(** Thirty days of cost 100. *)
Definition constant_30 : DataFrame :=
  map (fun i => obs (Z.of_nat i) 100 50) (seq 1 30).

(** Four days of cost 10 followed by one day of cost 100. *)
Definition spike_series : DataFrame :=
  [obs 1 10 5; obs 2 10 5; obs 3 10 5; obs 4 10 5; obs 5 100 5].

(** A single day, and two days. *)
Definition single_day : DataFrame := [obs 1 100 50].
Definition two_days : DataFrame := [obs 1 100 50; obs 2 110 55].

(** The same anomaly under another method label. *)
Definition relabel (m : string) (a : Anomaly.t) : Anomaly.t :=
  {| Anomaly.date := Anomaly.date a;
     Anomaly.cost := Anomaly.cost a;
     Anomaly.method := m;
     Anomaly.severity := Anomaly.severity a |}.

(** ** data_processor.py : the other analyses of [DataProcessor] *)

Module SimpleAnomaly.
Record t : Type := {
  date : Z;
  cost : float;
  z_score : float;
  deviation : float
}.
End SimpleAnomaly.

Module SimpleForecast.
Record t : Type := {
  date : Z;
  forecasted_cost : float
}.
End SimpleForecast.

Module ServiceCost.
Record t : Type := {
  service : string;
  total_cost : float;
  average_cost : float;
  percentage : float;
  usage_count : Z
}.
End ServiceCost.

Module SummaryStats.
Record t : Type := {
  total_cost : float;
  average_cost : float;
  min_cost : float;
  max_cost : float;
  std_dev : float;
  total_usage : float;
  record_count : Z;
  date_range_start : Z;
  date_range_end : Z
}.
End SummaryStats.

(** One row of the [service_costs] frame. The totals are sums of finite
    costs, kept as rationals; the percentage column is added last. *)
Record ServiceRow : Type := {
  s_service : string;
  s_total_cost : Q;
  s_avg_cost : float;
  s_count : nat;
  s_total_usage : Q;
  s_percentage : float
}.

(** [sort_values("total_cost", ascending=False)] on the service frame. *)
Fixpoint insert_by_cost (r : ServiceRow) (rs : list ServiceRow)
  : list ServiceRow :=
  match rs with
  | [] => [r]
  | r' :: rest =>
      if Qle_bool (s_total_cost r') (s_total_cost r) then r :: rs
      else r' :: insert_by_cost r rest
  end.

Definition sort_by_cost_desc (rs : list ServiceRow) : list ServiceRow :=
  fold_right insert_by_cost [] rs.

Module StatisticalAnalysis.

(** *** identify_anomalies *)

Definition identify_anomalies_body `{Runtime}
           (cost_data : DataFrame) (threshold : Q)
  : result (list SimpleAnomaly.t) :=
  if empty cost_data then Ok []
  else
    let daily_costs := daily_sum Observation.cost cost_data in
    let mean := np_mean (map Fin (values daily_costs)) in
    let std := pd_std (map Fin (values daily_costs)) in
    Ok (flat_map
          (fun dc =>
             let cost := Fin (snd dc) in
             let z_score :=
               if fneb std (of_Z 0) then fabs (fdiv (fsub cost mean) std)
               else of_Z 0 in
             if fgt z_score (Fin threshold)
             then [ {| SimpleAnomaly.date := fst dc;
                       SimpleAnomaly.cost := cost;
                       SimpleAnomaly.z_score := z_score;
                       SimpleAnomaly.deviation :=
                         if fneb mean (of_Z 0)
                         then fmul (fdiv (fsub cost mean) mean) (of_Z 100)
                         else of_Z 0 |} ]
             else [])
          daily_costs).

Definition identify_anomalies `{Runtime}
           (cost_data : DataFrame) (threshold : Q) : list SimpleAnomaly.t :=
  try_except (identify_anomalies_body cost_data threshold) [].

(** *** forecast_costs *)

Definition forecast_costs_body `{Runtime}
           (cost_data : DataFrame) (days_ahead : Z)
  : result (list SimpleForecast.t) :=
  if empty cost_data then Ok []
  else
    let daily_costs := daily_sum Observation.cost cost_data in
    let avg_cost := np_mean (map Fin (values daily_costs)) in
    let x := arange (length daily_costs) in
    let y := values daily_costs in
    let n := inject_Z (Z.of_nat (length x)) in
    let slope :=
      fdiv (Fin (n * dot x y - Qsum x * Qsum y)%Q)
           (Fin (n * dot x x - Qsum x * Qsum x)%Q) in
    last_date <- iloc_last (index daily_costs) ;;
    mapM (fun i =>
            forecast_date <- add_days last_date i ;;
            let forecast_cost := fadd avg_cost (fmul slope (of_Z i)) in
            Ok {| SimpleForecast.date := forecast_date;
                  SimpleForecast.forecasted_cost := py_max0 forecast_cost |})
         (range1 (days_ahead + 1)).

Definition forecast_costs `{Runtime} (cost_data : DataFrame) (days_ahead : Z)
  : list SimpleForecast.t :=
  try_except (forecast_costs_body cost_data days_ahead) [].

(** *** analyze_service_distribution *)

Definition service_frame (cost_data : DataFrame) : list ServiceRow :=
  map (fun g =>
         let costs := map Observation.cost (snd g) in
         {| s_service := fst g;
            s_total_cost := Qsum costs;
            s_avg_cost := np_mean (map Fin costs);
            s_count := length costs;
            s_total_usage := Qsum (map Observation.usage (snd g));
            s_percentage := NaN |})
      (groupby String.compare Observation.service cost_data).

Definition set_percentage (p : float) (r : ServiceRow) : ServiceRow :=
  {| s_service := s_service r;
     s_total_cost := s_total_cost r;
     s_avg_cost := s_avg_cost r;
     s_count := s_count r;
     s_total_usage := s_total_usage r;
     s_percentage := p |}.

Definition analyze_service_distribution_body (cost_data : DataFrame)
  : result (list ServiceCost.t) :=
  if empty cost_data then Ok []
  else
    let service_costs := service_frame cost_data in
    let total := Qsum (map s_total_cost service_costs) in
    let service_costs :=
      map (fun r =>
             set_percentage
               (if fgt (Fin total) (of_Z 0)
                then fmul (fdiv (Fin (s_total_cost r)) (Fin total)) (of_Z 100)
                else of_Z 0)
               r)
          service_costs in
    let service_costs := sort_by_cost_desc service_costs in
    Ok (map (fun row =>
               {| ServiceCost.service := s_service row;
                  ServiceCost.total_cost := Fin (s_total_cost row);
                  ServiceCost.average_cost := s_avg_cost row;
                  ServiceCost.percentage := s_percentage row;
                  ServiceCost.usage_count := Z.of_nat (s_count row) |})
            service_costs).

Definition analyze_service_distribution (cost_data : DataFrame)
  : list ServiceCost.t :=
  try_except (analyze_service_distribution_body cost_data) [].

(** *** generate_summary_stats *)

Definition generate_summary_stats_body `{Runtime} (cost_data : DataFrame)
  : result (option SummaryStats.t) :=
  match cost_data with
  | [] => Ok None
  | o :: rest =>
      let costs := map Observation.cost cost_data in
      Ok (Some
            {| SummaryStats.total_cost := Fin (Qsum costs);
               SummaryStats.average_cost := np_mean (map Fin costs);
               SummaryStats.min_cost := series_min costs;
               SummaryStats.max_cost := series_max costs;
               SummaryStats.std_dev := pd_std (map Fin costs);
               SummaryStats.total_usage :=
                 Fin (Qsum (map Observation.usage cost_data));
               SummaryStats.record_count := Z.of_nat (length cost_data);
               SummaryStats.date_range_start :=
                 fold_left Z.min (map Observation.date rest)
                           (Observation.date o);
               SummaryStats.date_range_end :=
                 fold_left Z.max (map Observation.date rest)
                           (Observation.date o) |})
  end.

Definition generate_summary_stats `{Runtime} (cost_data : DataFrame)
  : option SummaryStats.t :=
  try_except (generate_summary_stats_body cost_data) None.

End StatisticalAnalysis.

(** ** advanced_analytics.py : scenario comparison and unit economics *)

(** A scenario dictionary; a missing key is [None]. *)
Module Scenario.
Record t : Type := {
  name : option string;
  cost : option Q;
  description : option string
}.
End Scenario.

Module ScenarioEntry.
Record t : Type := {
  name : string;
  cost : float;
  description : string
}.
End ScenarioEntry.

(** The comparison dictionary; the key "savings_potential" is only set
    inside [if costs:]. *)
Module Comparison.
Record t : Type := {
  scenarios : list ScenarioEntry.t;
  best_scenario : option string;
  worst_scenario : option string;
  average_cost : float;
  cost_range : float;
  savings_potential : option float
}.
End Comparison.

Module ServiceEconomics.
Record t : Type := {
  service : string;
  cost_per_unit : float;
  total_cost : float;
  total_usage : float
}.
End ServiceEconomics.

Module UnitEconomics.
Record t : Type := {
  overall_cost_per_unit : float;
  business_metric : string;
  total_cost : float;
  total_usage : float;
  by_service : list ServiceEconomics.t
}.
End UnitEconomics.


(** Python's [min] and [max] of a non-empty list: the first extremal
    element is kept. *)
Definition py_min (x : Q) (rest : list Q) : Q :=
  fold_left (fun m y => if Qltb y m then y else m) rest x.

Definition py_max (x : Q) (rest : list Q) : Q :=
  fold_left (fun m y => if Qltb m y then y else m) rest x.


(** [s.unique()]: the distinct values in order of first appearance. *)
Fixpoint unique (xs : list string) : list string :=
  match xs with
  | [] => []
  | x :: rest => x :: filter (fun y => negb (String.eqb y x)) (unique rest)
  end.

Module ScenarioAnalysis.

(** *** compare_cost_scenarios *)



(** *** calculate_unit_economics *)

Definition rows_of_service (service : string) (cost_data : DataFrame)
  : DataFrame :=
  filter (fun o => String.eqb (Observation.service o) service) cost_data.

Definition calculate_unit_economics_body
           (cost_data : DataFrame) (business_metric : string)
  : result (option UnitEconomics.t) :=
  if empty cost_data then Ok None
  else
    let total_cost := Qsum (map Observation.cost cost_data) in
    let total_usage := Qsum (map Observation.usage cost_data) in
    let cost_per_unit :=
      if fgt (Fin total_usage) (of_Z 0)
      then fdiv (Fin total_cost) (Fin total_usage) else of_Z 0 in
    let service_economics :=
      map (fun service =>
             let service_data := rows_of_service service cost_data in
             let service_cost := Qsum (map Observation.cost service_data) in
             let service_usage := Qsum (map Observation.usage service_data) in
             let service_cpu :=
               if fgt (Fin service_usage) (of_Z 0)
               then fdiv (Fin service_cost) (Fin service_usage)
               else of_Z 0 in
             {| ServiceEconomics.service := service;
                ServiceEconomics.cost_per_unit := service_cpu;
                ServiceEconomics.total_cost := Fin service_cost;
                ServiceEconomics.total_usage := Fin service_usage |})
          (unique (map Observation.service cost_data)) in
    Ok (Some {| UnitEconomics.overall_cost_per_unit := cost_per_unit;
                UnitEconomics.business_metric := business_metric;
                UnitEconomics.total_cost := Fin total_cost;
                UnitEconomics.total_usage := Fin total_usage;
                UnitEconomics.by_service := service_economics |}).

Definition calculate_unit_economics
           (cost_data : DataFrame) (business_metric : string)
  : option UnitEconomics.t :=
  try_except (calculate_unit_economics_body cost_data business_metric) None.

End ScenarioAnalysis.



(** Three rows over two services and two dates. *)
Definition mixed_frame : DataFrame :=
  [ {| Observation.date := 1; Observation.service := "S3";
       Observation.region := "us-east-1";
       Observation.cost := 30; Observation.usage := 10 |};
    {| Observation.date := 2; Observation.service := "EC2";
       Observation.region := "us-east-1";
       Observation.cost := 50; Observation.usage := 20 |};
    {| Observation.date := 2; Observation.service := "S3";
       Observation.region := "eu-west-1";
       Observation.cost := 20; Observation.usage := 0 |} ].

(** * Properties *)

(** ** Comparisons on rationals *)

Lemma Qltb_true_iff (a b : Q) : Qltb a b = true <-> (a < b)%Q.
Proof.
  unfold Qltb. rewrite negb_true_iff.
  split.
  - intro Hle. apply Qnot_le_lt. intro Hba.
    apply Qle_bool_iff in Hba. congruence.
  - intro Hlt. destruct (Qle_bool b a) eqn:E; [|reflexivity].
    apply Qle_bool_iff in E. exfalso. exact (Qlt_not_le _ _ Hlt E).
Qed.

Lemma Qltb_false_iff (a b : Q) : Qltb a b = false <-> ~ (a < b)%Q.
Proof.
  rewrite <- Qltb_true_iff. destruct (Qltb a b); split; congruence.
Qed.

Lemma Qeq_bool_false_iff (a b : Q) : Qeq_bool a b = false <-> ~ (a == b)%Q.
Proof.
  rewrite <- Qeq_bool_iff. destruct (Qeq_bool a b); split; congruence.
Qed.

(** Turns [H : same_value x (Fin a)] into the goal's [same_value x (Fin b)]
    when [a == b] by computation. *)
Ltac same_value_by H :=
  match type of H with
  | same_value ?x _ =>
      destruct x; cbn in H |- *; try contradiction; rewrite H; reflexivity
  end.

(** ** Positional access *)

Lemma iloc_first_ok {A : Type} (xs : list A) :
  xs <> [] -> exists x, iloc_first xs = Ok x.
Proof.
  destruct xs as [|x rest]; [congruence|]. intros _. now exists x.
Qed.

Lemma iloc_last_ok {A : Type} (xs : list A) :
  xs <> [] -> exists x, iloc_last xs = Ok x.
Proof.
  intros Hne. unfold iloc_last.
  destruct (rev xs) as [|x rest] eqn:E.
  - exfalso. apply Hne. rewrite <- (rev_involutive xs), E. reflexivity.
  - now exists x.
Qed.

Lemma iloc_last_snoc {A : Type} (xs : list A) (x : A) :
  iloc_last (xs ++ [x]) = Ok x.
Proof.
  unfold iloc_last. now rewrite rev_app_distr.
Qed.

Lemma iloc_last_map_seq {A : Type} (f : nat -> A) (n : nat) :
  iloc_last (map f (seq 0 (S n))) = Ok (f n).
Proof.
  rewrite seq_S, map_app. simpl. apply iloc_last_snoc.
Qed.

(** ** Grouping *)

Lemma insert_row_nonempty {K : Type} (kcmp : K -> K -> comparison)
      (k : K) (o : Observation.t) (groups : list (K * list Observation.t)) :
  insert_row kcmp k o groups <> [].
Proof.
  destruct groups as [|[k' rows] rest]; simpl; [discriminate|].
  destruct (kcmp k k'); discriminate.
Qed.

Lemma groupby_nonempty {K : Type} (kcmp : K -> K -> comparison)
      (key : Observation.t -> K) (df : DataFrame) :
  df <> [] -> groupby kcmp key df <> [].
Proof.
  destruct df as [|o rest]; [congruence|]. intros _.
  simpl. apply insert_row_nonempty.
Qed.

Lemma daily_sum_nonempty (col : Observation.t -> Q) (df : DataFrame) :
  df <> [] -> values (daily_sum col df) <> [].
Proof.
  intros Hne Hnil. unfold values, daily_sum in Hnil.
  apply map_eq_nil in Hnil. apply map_eq_nil in Hnil.
  exact (groupby_nonempty _ _ _ Hne Hnil).
Qed.

(** All rows of one date form a single group holding every row. *)
Lemma groupby_single_date (d : Z) (df : DataFrame) :
  df <> [] ->
  Forall (fun o => Observation.date o = d) df ->
  groupby Z.compare Observation.date df = [(d, df)].
Proof.
  induction df as [|o rest IH]; [congruence|].
  intros _ Hall. inversion Hall as [|? ? Ho Hrest]; subst.
  destruct rest as [|o' rest'].
  - reflexivity.
  - simpl in *. rewrite IH by (congruence || assumption).
    simpl. now rewrite Z.compare_refl.
Qed.

Lemma daily_sum_single_date (col : Observation.t -> Q) (d : Z) (df : DataFrame) :
  df <> [] ->
  Forall (fun o => Observation.date o = d) df ->
  daily_sum col df = [(d, Qsum (map col df))].
Proof.
  intros Hne Hall. unfold daily_sum.
  now rewrite (groupby_single_date d df Hne Hall).
Qed.

(** ** calculate_trends *)

Lemma rolling_mean_last (w : Z) (xs : list Q) :
  0 <= w -> xs <> [] ->
  exists l,
    rolling_mean w xs = Ok l /\
    iloc_last l =
      Ok (let win := window_at (Z.to_nat w) xs (length xs - 1) in
          if (Z.to_nat w <=? length win)%nat && (0 <? length win)%nat
          then fdiv (Fin (Qsum win)) (of_nat (length win))
          else NaN).
Proof.
  intros Hw Hne. unfold rolling_mean.
  destruct (w <? 0) eqn:E; [apply Z.ltb_lt in E; lia|].
  eexists. split; [reflexivity|].
  destruct xs as [|x rest]; [congruence|].
  cbn [length]. rewrite iloc_last_map_seq.
  now replace (S (length rest) - 1)%nat with (length rest) by lia.
Qed.

(** On a non-empty frame and a valid window the function returns all six
    fields, computed from the first and last values of the daily series. *)
Lemma calculate_trends_returns (cost_data : DataFrame) (window : Z) :
  cost_data <> [] -> 0 <= window ->
  exists first last l avg,
    iloc_first (values (daily_sum Observation.cost cost_data)) = Ok first /\
    iloc_last (values (daily_sum Observation.cost cost_data)) = Ok last /\
    rolling_mean window (values (daily_sum Observation.cost cost_data)) = Ok l /\
    iloc_last l = Ok avg /\
    DataProcessor.calculate_trends cost_data window =
      Some {| Trends.trend := if Qltb first last then "increasing"%string
                              else "decreasing"%string;
              Trends.percentage_change :=
                if negb (Qeq_bool first 0)
                then fmul (fdiv (fsub (Fin last) (Fin first)) (Fin first))
                          (of_Z 100)
                else of_Z 0;
              Trends.current_daily_cost := Fin last;
              Trends.average_daily_cost := avg;
              Trends.min_daily_cost :=
                series_min (values (daily_sum Observation.cost cost_data));
              Trends.max_daily_cost :=
                series_max (values (daily_sum Observation.cost cost_data)) |}.
Proof.
  intros Hne Hw.
  pose proof (daily_sum_nonempty Observation.cost cost_data Hne) as Hd.
  destruct (iloc_first_ok _ Hd) as [first Hf].
  destruct (iloc_last_ok _ Hd) as [last Hl].
  destruct (rolling_mean_last window _ Hw Hd) as (l & Hroll & Havg).
  exists first, last, l. eexists.
  repeat split; try eassumption.
  unfold DataProcessor.calculate_trends, DataProcessor.calculate_trends_body.
  destruct cost_data as [|o rest]; [congruence|].
  cbn [empty]. rewrite Hroll. cbn [bind]. rewrite Hl. cbn [bind].
  rewrite Hf. cbn [bind]. rewrite Havg. reflexivity.
Qed.

(** C6. On every non-empty daily-cost series (and any valid window),
    [calculate_trends] returns a result whose trend is "increasing" when
    the last daily value exceeds the first and "decreasing" otherwise, and
    whose percentage_change is 0 when the first value is 0 and
    [(last - first) / first * 100] otherwise. *)
Theorem calculate_trends_direction_and_change :
  forall (cost_data : DataFrame) (window : Z),
    cost_data <> [] -> 0 <= window ->
    exists first last r,
      iloc_first (values (daily_sum Observation.cost cost_data)) = Ok first /\
      iloc_last (values (daily_sum Observation.cost cost_data)) = Ok last /\
      DataProcessor.calculate_trends cost_data window = Some r /\
      ((first < last)%Q -> Trends.trend r = "increasing"%string) /\
      (~ (first < last)%Q -> Trends.trend r = "decreasing"%string) /\
      ((first == 0)%Q -> same_value (Trends.percentage_change r) (Fin 0)) /\
      (~ (first == 0)%Q ->
       same_value (Trends.percentage_change r)
                  (Fin ((last - first) / first * 100)%Q)).
Proof.
  intros cost_data window Hne Hw.
  destruct (calculate_trends_returns cost_data window Hne Hw)
    as (first & last & l & avg & Hf & Hl & _ & _ & Hr).
  exists first, last. eexists.
  split; [exact Hf|]. split; [exact Hl|]. split; [exact Hr|].
  cbn [Trends.trend Trends.percentage_change].
  repeat split.
  - intro Hlt. apply Qltb_true_iff in Hlt. now rewrite Hlt.
  - intro Hnlt. apply Qltb_false_iff in Hnlt. now rewrite Hnlt.
  - intro Hz. apply Qeq_bool_iff in Hz. rewrite Hz. cbn. reflexivity.
  - intro Hnz. apply Qeq_bool_false_iff in Hnz.
    cbn [negb]. rewrite Hnz. cbn [negb].
    unfold fsub, fneg, fadd, fdiv. rewrite Hnz.
    cbn [fmul of_Z same_value]. reflexivity.
Qed.

(** The series [100, 90, 80]: trend "decreasing", percentage change -20. *)
Lemma calculate_trends_direction_and_change_witness :
  (series_100_90_80 <> [] /\ 0 <= 7) /\
  exists r,
    DataProcessor.calculate_trends series_100_90_80 7 = Some r /\
    Trends.trend r = "decreasing"%string /\
    same_value (Trends.percentage_change r) (Fin (-20)).
Proof.
  split; [split; [discriminate | lia]|].
  destruct (calculate_trends_direction_and_change series_100_90_80 7)
    as (first & last & r & Hf & Hl & Hr & _ & Hdec & _ & Hpct);
    [discriminate | lia |].
  vm_compute in Hf. vm_compute in Hl.
  injection Hf as <-. injection Hl as <-.
  exists r. split; [exact Hr|]. split.
  - apply Hdec. intro Hlt. vm_compute in Hlt. discriminate.
  - assert (Hn : ~ (0 + 100 == 0)%Q) by (intro E; vm_compute in E; discriminate).
    specialize (Hpct Hn). same_value_by Hpct.
Defined.

(** C4 (failing path). When the daily series is shorter than the rolling
    window, [calculate_trends] still returns its six fields, but
    average_daily_cost is NaN: the rolling mean requires a full window. *)
Theorem calculate_trends_short_series_average_nan :
  forall (cost_data : DataFrame) (window : Z),
    cost_data <> [] ->
    Z.of_nat (length (daily_sum Observation.cost cost_data)) < window ->
    exists r,
      DataProcessor.calculate_trends cost_data window = Some r /\
      Trends.average_daily_cost r = NaN.
Proof.
  intros cost_data window Hne Hshort.
  assert (Hw : 0 <= window) by lia.
  destruct (calculate_trends_returns cost_data window Hne Hw)
    as (first & last & l & avg & _ & _ & Hroll & Havg & Hr).
  eexists. split; [exact Hr|]. cbn [Trends.average_daily_cost].
  pose proof (daily_sum_nonempty Observation.cost cost_data Hne) as Hd.
  destruct (rolling_mean_last window _ Hw Hd) as (l' & Hroll' & Havg').
  rewrite Hroll in Hroll'. injection Hroll' as <-.
  rewrite Havg in Havg'. injection Havg' as ->.
  cbv zeta.
  set (xs := values (daily_sum Observation.cost cost_data)) in *.
  assert (Hlen : (length (window_at (Z.to_nat window) xs (length xs - 1))
                  <= length xs)%nat).
  { unfold window_at. rewrite length_skipn, length_firstn. lia. }
  assert (Hxs : length xs = length (daily_sum Observation.cost cost_data)).
  { unfold xs, values. apply length_map. }
  destruct (Nat.leb_spec (Z.to_nat window)
              (length (window_at (Z.to_nat window) xs (length xs - 1))));
    [lia | reflexivity].
Qed.

(** A single observation of cost 100 under the default window 7: the mean
    of the available points is 100, the reported average is NaN. *)
Lemma calculate_trends_short_series_average_nan_witness :
  (single_day <> [] /\
   Z.of_nat (length (daily_sum Observation.cost single_day)) < 7) /\
  exists r,
    DataProcessor.calculate_trends single_day 7 = Some r /\
    Trends.average_daily_cost r = NaN.
Proof.
  split.
  - split; [discriminate | vm_compute; reflexivity].
  - apply (calculate_trends_short_series_average_nan single_day 7).
    + discriminate.
    + vm_compute. reflexivity.
Defined.

(** The full result on [100, 90, 80] under a window of 2 days. *)
Example calculate_trends_100_90_80_window_2 :
  DataProcessor.calculate_trends series_100_90_80 2
  = Some {| Trends.trend := "decreasing";
            Trends.percentage_change := Fin (-20.00);
            Trends.current_daily_cost := Fin (0 + 80);
            Trends.average_daily_cost := Fin (170 # 2);
            Trends.min_daily_cost := Fin (0 + 80);
            Trends.max_daily_cost := Fin (0 + 100) |}.
Proof.
  vm_compute. reflexivity.
Qed.

(** ** Empty input *)

(** C9. On the empty observation set every component returns its empty
    result (the [try/except] wrapper is part of each function, so no
    exception escapes): [calculate_trends] and [calculate_cost_elasticity]
    the empty dictionary, the three list-valued functions the empty list. *)
Theorem empty_input_empty_results :
  forall (rt : Runtime) (window days_ahead top_n : Z) (method : string)
         (contamination confidence : Q) (service : option string),
    DataProcessor.calculate_trends [] window = None /\
    AdvancedAnalytics.detect_cost_anomalies_advanced [] method contamination
      = [] /\
    AdvancedAnalytics.forecast_with_confidence_intervals [] days_ahead confidence
      = [] /\
    AdvancedAnalytics.identify_cost_drivers [] top_n = [] /\
    AdvancedAnalytics.calculate_cost_elasticity [] service = None.
Proof.
  intros. repeat split.
Qed.

(** ** calculate_roi_for_optimization *)

Lemma fdiv_Fin (a b : Q) : ~ (b == 0)%Q -> fdiv (Fin a) (Fin b) = Fin (a / b).
Proof.
  intro Hb. apply Qeq_bool_false_iff in Hb. unfold fdiv. now rewrite Hb.
Qed.





(** ** identify_cost_drivers *)

(** On a non-empty frame the body stops at the truth test of the Series. *)
Lemma identify_cost_drivers_body_raises
      (rt : Runtime) (cost_data : DataFrame) (top_n : Z) :
  cost_data <> [] ->
  AdvancedAnalytics.identify_cost_drivers_body cost_data top_n
  = Raise ValueError.
Proof.
  destruct cost_data as [|o rest]; [congruence|]. reflexivity.
Qed.

(** C1 (failing path). The test [if drivers["total_usage"] > 0] asks for the
    truth value of a Series, which raises ValueError; the handler turns it
    into the empty list. No observation set ever yields a driver record. *)
Theorem identify_cost_drivers_always_empty :
  forall (rt : Runtime) (cost_data : DataFrame) (top_n : Z),
    AdvancedAnalytics.identify_cost_drivers cost_data top_n = [].
Proof.
  intros rt cost_data top_n.
  unfold AdvancedAnalytics.identify_cost_drivers,
         AdvancedAnalytics.identify_cost_drivers_body.
  destruct cost_data as [|o rest]; reflexivity.
Qed.

Example identify_cost_drivers_two_groups :
  length (groupby pair_compare
            (fun o => (Observation.service o, Observation.region o))
            two_groups_700_300) = 2%nat /\
  @AdvancedAnalytics.identify_cost_drivers sample_runtime two_groups_700_300 10
    = [].
Proof.
  split; reflexivity.
Qed.

(** ** detect_cost_anomalies_advanced *)

Lemma mapM_Forall {A B : Type} (P : B -> Prop) (f : A -> result B)
      (xs : list A) (ys : list B) :
  (forall x y, f x = Ok y -> P y) ->
  mapM f xs = Ok ys -> Forall P ys.
Proof.
  intro Hf. revert ys.
  induction xs as [|x rest IH]; intros ys Hm; simpl in Hm.
  - injection Hm as <-. constructor.
  - destruct (f x) as [y|e] eqn:Ef; simpl in Hm; [|discriminate].
    destruct (mapM f rest) as [ys'|e] eqn:Em; simpl in Hm; [|discriminate].
    injection Hm as <-. constructor; eauto.
Qed.

Lemma mapM_relabel {A : Type} (m : string) (f g : A -> result Anomaly.t)
      (xs : list A) :
  (forall x, g x = (a <- f x ;; Ok (relabel m a))) ->
  try_except (mapM g xs) [] = map (relabel m) (try_except (mapM f xs) []).
Proof.
  intro Hg.
  assert (Hm : mapM g xs = (ys <- mapM f xs ;; Ok (map (relabel m) ys))).
  { induction xs as [|x rest IH]; simpl; [reflexivity|].
    rewrite Hg, IH. destruct (f x); simpl; [|reflexivity].
    destruct (mapM f rest); reflexivity. }
  rewrite Hm. destruct (mapM f xs); reflexivity.
Qed.

(** C10. Every anomaly record carries the method string that the caller
    passed, whatever branch computed the indices. When scikit-learn is
    absent, a request for "isolation_forest" returns exactly the anomalies
    of the IQR method, labelled "isolation_forest". *)
Theorem anomalies_carry_requested_method :
  forall (rt : Runtime) (cost_data : DataFrame) (method : string)
         (contamination : Q),
    Forall (fun a => Anomaly.method a = method)
           (AdvancedAnalytics.detect_cost_anomalies_advanced
              cost_data method contamination) /\
    (IsolationForest = None ->
     AdvancedAnalytics.detect_cost_anomalies_advanced
       cost_data "isolation_forest" contamination
     = map (relabel "isolation_forest")
           (AdvancedAnalytics.detect_cost_anomalies_advanced
              cost_data "iqr" contamination)).
Proof.
  intros rt cost_data method contamination. split.
  - unfold AdvancedAnalytics.detect_cost_anomalies_advanced.
    destruct (AdvancedAnalytics.detect_cost_anomalies_advanced_body
                cost_data method contamination) as [l|e] eqn:E;
      simpl; [|constructor].
    unfold AdvancedAnalytics.detect_cost_anomalies_advanced_body in E.
    destruct cost_data as [|o rest]; cbn [empty] in E.
    + injection E as <-. constructor.
    + match type of E with
      | bind ?c _ = _ => destruct c as [idxs|e]; cbn [bind] in E;
                         [|discriminate]
      end.
      eapply mapM_Forall; [|exact E].
      intros idx a Ha. cbv beta in Ha.
      destruct (getitem _ idx); cbn [bind] in Ha; [|discriminate].
      destruct (getitem _ idx); cbn [bind] in Ha; [|discriminate].
      injection Ha as <-. reflexivity.
  - intro Hnone.
    unfold AdvancedAnalytics.detect_cost_anomalies_advanced,
           AdvancedAnalytics.detect_cost_anomalies_advanced_body.
    destruct cost_data as [|o rest]; cbn [empty]; [reflexivity|].
    rewrite Hnone.
    change (String.eqb "isolation_forest" "zscore") with false.
    change (String.eqb "isolation_forest" "iqr") with false.
    change (String.eqb "iqr" "zscore") with false.
    change (String.eqb "iqr" "iqr") with true.
    cbn [bind]. apply mapM_relabel.
    intro idx. destruct (getitem _ idx); cbn [bind]; [|reflexivity].
    destruct (getitem _ idx); reflexivity.
Qed.

(** Without scikit-learn, the spike of cost 100 on day 5 is found by the
    IQR rule and reported under the requested label. *)
Lemma anomalies_carry_requested_method_witness :
  @IsolationForest sample_runtime = None /\
  @AdvancedAnalytics.detect_cost_anomalies_advanced sample_runtime
    spike_series "isolation_forest" 0.1
  = [ {| Anomaly.date := 5; Anomaly.cost := Fin (0 + 100);
         Anomaly.method := "isolation_forest";
         Anomaly.severity := "high" |} ].
Proof.
  split; [reflexivity|].
  rewrite (proj2 (anomalies_carry_requested_method
                    sample_runtime spike_series "isolation_forest" 0.1)
                 eq_refl).
  vm_compute. reflexivity.
Defined.

(** *** z-scores of a constant series *)

Lemma fsum_Fin_acc (xs : list Q) (a : Q) :
  fold_left fadd (map Fin xs) (Fin a) = Fin (fold_left Qplus xs a).
Proof.
  revert a. induction xs as [|x rest IH]; intro a; simpl; [reflexivity|].
  apply IH.
Qed.

Lemma fsum_Fin (xs : list Q) : fsum (map Fin xs) = Fin (Qsum xs).
Proof.
  apply fsum_Fin_acc.
Qed.

Lemma fold_Qplus_constant (c : Q) (xs : list Q) (a : Q) :
  Forall (fun x => (x == c)%Q) xs ->
  (fold_left Qplus xs a == a + inject_Z (Z.of_nat (length xs)) * c)%Q.
Proof.
  intro Hall. revert a.
  induction Hall as [|x rest Hx _ IH]; intro a; cbn [fold_left length].
  - cbn. ring.
  - rewrite IH, Hx, Nat2Z.inj_succ. unfold Z.succ.
    rewrite inject_Z_plus. ring.
Qed.

Lemma inject_nat_nonzero (n : nat) :
  (0 < n)%nat -> ~ (inject_Z (Z.of_nat n) == 0)%Q.
Proof.
  intros Hn Hz. unfold Qeq in Hz. cbn in Hz. lia.
Qed.

(** The mean of a non-empty constant array is the constant. *)
Lemma np_mean_constant (c : Q) (xs : list Q) :
  xs <> [] ->
  Forall (fun x => (x == c)%Q) xs ->
  exists m, np_mean (map Fin xs) = Fin m /\ (m == c)%Q.
Proof.
  intros Hne Hall.
  assert (Hlen : (0 < length xs)%nat)
    by (destruct xs; [congruence | cbn; lia]).
  pose proof (inject_nat_nonzero _ Hlen) as Hnz.
  unfold np_mean. rewrite fsum_Fin, length_map. unfold of_nat.
  rewrite (fdiv_Fin _ _ Hnz). eexists. split; [reflexivity|].
  unfold Qsum. rewrite (fold_Qplus_constant c xs 0 Hall).
  field. exact Hnz.
Qed.

(** A zero deviation divided by any standard deviation (zero, positive,
    infinite or NaN) never exceeds the threshold 3 in absolute value. *)
Lemma zero_deviation_below_threshold (d : Q) (std : float) :
  (d == 0)%Q -> fgt (fabs (fdiv (Fin d) std)) (of_Z 3) = false.
Proof.
  intro Hd.
  assert (Hnum : Qnum d = 0) by (unfold Qeq in Hd; cbn in Hd; lia).
  destruct std as [b| | |]; cbn [fdiv]; try reflexivity.
  destruct (Qeq_bool b 0).
  - cbn [fsgn]. rewrite Hnum. reflexivity.
  - cbn [fabs]. unfold fgt, flt, of_Z. apply Qltb_false_iff.
    intro Hlt. rewrite Hd in Hlt.
    assert (Hz : (Qabs (0 / b) == 0)%Q).
    { assert (H0 : (0 / b == 0)%Q) by (unfold Qdiv; ring).
      rewrite H0. reflexivity. }
    rewrite Hz in Hlt. vm_compute in Hlt. discriminate.
Qed.

Lemma where_from_all_false (i : nat) (mask : list bool) :
  Forall (fun b => b = false) mask -> where_from i mask = [].
Proof.
  intro Hall. revert i.
  induction Hall as [|b rest Hb _ IH]; intro i; simpl; [reflexivity|].
  rewrite Hb. apply IH.
Qed.

(** C7. When every day of the aggregated series has the same total cost,
    the "zscore" method returns the empty anomaly list: the deviations are
    0, their quotient by the standard deviation is 0 or NaN, and neither
    exceeds 3. *)
Theorem zscore_constant_series_no_anomalies :
  forall (rt : Runtime) (cost_data : DataFrame) (contamination c : Q),
    Forall (fun v => (v == c)%Q)
           (values (daily_sum Observation.cost cost_data)) ->
    AdvancedAnalytics.detect_cost_anomalies_advanced
      cost_data "zscore" contamination = [].
Proof.
  intros rt cost_data contamination c Hconst.
  unfold AdvancedAnalytics.detect_cost_anomalies_advanced,
         AdvancedAnalytics.detect_cost_anomalies_advanced_body.
  destruct cost_data as [|o rest] eqn:Edata; cbn [empty]; [reflexivity|].
  rewrite <- Edata in *.
  assert (Hne : cost_data <> []) by (rewrite Edata; discriminate).
  clear Edata.
  change (String.eqb "zscore" "zscore") with true. cbv iota zeta.
  set (costs := values (daily_sum Observation.cost cost_data)) in *.
  assert (Hcosts : costs <> [])
    by (apply daily_sum_nonempty; exact Hne).
  destruct (np_mean_constant c costs Hcosts Hconst) as (m & Hm & Hmc).
  assert (Hmask :
            Forall (fun b => b = false)
                   (map (fun z => fgt z (of_Z 3))
                        (map fabs (zscore (map Fin costs))))).
  { unfold zscore. rewrite !Forall_map, Hm.
    eapply Forall_impl; [|exact Hconst].
    intros x Hx. cbv beta.
    change (fsub (Fin x) (Fin m)) with (Fin (x + - m)).
    apply zero_deviation_below_threshold. rewrite Hx, Hmc. ring. }
  unfold np_where. rewrite (where_from_all_false 0 _ Hmask).
  reflexivity.
Qed.

(** Thirty days of cost 100. *)
Lemma zscore_constant_series_no_anomalies_witness :
  Forall (fun v => (v == 100)%Q)
         (values (daily_sum Observation.cost constant_30)) /\
  @AdvancedAnalytics.detect_cost_anomalies_advanced sample_runtime
    constant_30 "zscore" 0.1 = [].
Proof.
  assert (H : Forall (fun v => (v == 100)%Q)
                     (values (daily_sum Observation.cost constant_30))).
  { vm_compute. repeat (constructor; [reflexivity|]). constructor. }
  split; [exact H|].
  exact (zscore_constant_series_no_anomalies
           sample_runtime constant_30 0.1 100 H).
Defined.

(** ** calculate_cost_elasticity *)

Lemma filter_service_nil (service : option string) :
  filter_service service [] = [].
Proof.
  unfold filter_service. destruct (given service); reflexivity.
Qed.

Lemma daily_sum_length (col col' : Observation.t -> Q) (df : DataFrame) :
  length (daily_sum col df) = length (daily_sum col' df).
Proof.
  unfold daily_sum. now rewrite !length_map.
Qed.

Lemma values_single {A B : Type} (s : list (A * B)) :
  length s = 1%nat -> exists v, values s = [v].
Proof.
  destruct s as [|[d v] [|p rest]]; cbn; intro Hlen; try discriminate.
  now exists v.
Qed.

(** C3, as the code has it. When the (filtered) observations cover exactly
    one date, the day-over-day changes are empty after [dropna], the guard
    on their lengths selects elasticity 0, and the function returns a
    populated result carrying that elasticity and the service label. *)
Theorem elasticity_single_day_is_zero :
  forall (rt : Runtime) (cost_data : DataFrame) (service : option string),
    length (daily_sum Observation.cost (filter_service service cost_data))
      = 1%nat ->
    exists r,
      AdvancedAnalytics.calculate_cost_elasticity cost_data service = Some r /\
      Elasticity.elasticity r = Fin 0 /\
      Elasticity.service r = service_or_all service.
Proof.
  intros rt cost_data service Hlen.
  assert (Hdata : filter_service service cost_data <> []).
  { intro Hnil. rewrite Hnil in Hlen. discriminate. }
  assert (Hne : cost_data <> []).
  { intro Hnil. subst. now rewrite filter_service_nil in Hdata. }
  destruct (values_single _ Hlen) as [v Hv].
  assert (Hlen' : length (daily_sum Observation.usage
                            (filter_service service cost_data)) = 1%nat)
    by (rewrite <- Hlen; apply daily_sum_length).
  destruct (values_single _ Hlen') as [u Hu].
  unfold AdvancedAnalytics.calculate_cost_elasticity,
         AdvancedAnalytics.calculate_cost_elasticity_body.
  destruct cost_data as [|o rest]; [congruence|]. cbn [empty].
  destruct (filter_service service (o :: rest)) as [|o' rest'];
    [congruence|]. cbn [empty].
  rewrite Hv, Hu. cbn [try_except].
  eexists. split; [reflexivity|]. split; reflexivity.
Qed.

Lemma elasticity_single_day_is_zero_witness :
  length (daily_sum Observation.cost (filter_service None single_day)) = 1%nat /\
  exists r,
    @AdvancedAnalytics.calculate_cost_elasticity sample_runtime single_day None
      = Some r /\
    Elasticity.elasticity r = Fin 0 /\
    Elasticity.service r = "all"%string.
Proof.
  split; [reflexivity|].
  apply (elasticity_single_day_is_zero sample_runtime single_day None).
  reflexivity.
Defined.

(** C3 as stated fails: one observation, hence one date, and the result is
    not the empty dictionary; its volatility and correlation fields hold
    NaN. *)
Lemma elasticity_single_day_counterexample :
  single_day <> [] /\
  length (daily_sum Observation.cost single_day) = 1%nat /\
  @AdvancedAnalytics.calculate_cost_elasticity sample_runtime single_day None
  = Some {| Elasticity.elasticity := Fin 0;
            Elasticity.cost_volatility := NaN;
            Elasticity.usage_volatility := NaN;
            Elasticity.correlation := NaN;
            Elasticity.service := "all" |} /\
  @AdvancedAnalytics.calculate_cost_elasticity sample_runtime single_day None
  <> None.
Proof.
  repeat split; try discriminate.
Qed.

(** ** forecast_with_confidence_intervals *)

Lemma polyfit1_single (v : Q) : polyfit1 [v] = Raise LinAlgError.
Proof.
  reflexivity.
Qed.

(** C2. When the grouped daily series holds a single date, the degree-one
    fit fails inside numpy, the handler catches the exception, and the
    function returns the empty forecast list. *)
Theorem forecast_single_day_is_empty :
  forall (rt : Runtime) (cost_data : DataFrame) (days_ahead : Z)
         (confidence : Q),
    cost_data <> [] ->
    length (daily_sum Observation.cost cost_data) = 1%nat ->
    AdvancedAnalytics.forecast_with_confidence_intervals
      cost_data days_ahead confidence = [].
Proof.
  intros rt cost_data days_ahead confidence Hne Hlen.
  destruct (values_single _ Hlen) as [v Hv].
  unfold AdvancedAnalytics.forecast_with_confidence_intervals,
         AdvancedAnalytics.forecast_with_confidence_intervals_body.
  destruct cost_data as [|o rest]; [congruence|]. cbn [empty].
  cbv zeta. rewrite Hv, polyfit1_single. reflexivity.
Qed.

Lemma forecast_single_day_is_empty_witness :
  (single_day <> [] /\
   length (daily_sum Observation.cost single_day) = 1%nat) /\
  @AdvancedAnalytics.forecast_with_confidence_intervals sample_runtime
    single_day 30 0.95 = [].
Proof.
  split; [split; [discriminate | reflexivity]|].
  apply (forecast_single_day_is_empty sample_runtime single_day 30 0.95).
  - discriminate.
  - reflexivity.
Defined.

Lemma py_max0_nonneg (x : float) : fle (of_Z 0) (py_max0 x) = true.
Proof.
  unfold py_max0, fgt.
  destruct (flt (Fin 0) x) eqn:E; [|reflexivity].
  unfold fle. change (of_Z 0) with (Fin 0). now rewrite E.
Qed.

(** C5. Whenever the forecast list is not empty, one margin
    [m = z * residual_std * sqrt(1 + 1/n)], with [z] the normal quantile at
    [(1 + confidence) / 2], serves every entry: the upper bound is the
    forecast plus [m], the lower bound is [max(0, forecast - m)], and every
    lower bound is at least 0. The margin does not depend on the horizon. *)
Theorem forecast_margin_is_constant :
  forall (rt : Runtime) (cost_data : DataFrame) (days_ahead : Z)
         (confidence : Q),
    AdvancedAnalytics.forecast_with_confidence_intervals
      cost_data days_ahead confidence <> [] ->
    exists coeffs m,
      polyfit1 (values (daily_sum Observation.cost cost_data)) = Ok coeffs /\
      m = fmul (fmul (norm_ppf (Fin ((1 + confidence) / 2)))
                     (np_std (residuals coeffs
                                (values (daily_sum Observation.cost cost_data)))))
               (np_sqrt (fadd (of_Z 1)
                              (fdiv (of_Z 1)
                                    (of_nat (length (daily_sum Observation.cost
                                                       cost_data)))))) /\
      Forall (fun e =>
                Forecast.upper_bound e = fadd (Forecast.forecasted_cost e) m /\
                Forecast.lower_bound e
                  = py_max0 (fsub (Forecast.forecasted_cost e) m) /\
                fle (of_Z 0) (Forecast.lower_bound e) = true)
             (AdvancedAnalytics.forecast_with_confidence_intervals
                cost_data days_ahead confidence).
Proof.
  intros rt cost_data days_ahead confidence.
  unfold AdvancedAnalytics.forecast_with_confidence_intervals,
         AdvancedAnalytics.forecast_with_confidence_intervals_body.
  destruct cost_data as [|o rest]; cbn [empty try_except]; [congruence|].
  cbv zeta.
  destruct (polyfit1 _) as [coeffs|e]; cbn [bind try_except]; [|congruence].
  destruct (iloc_last _) as [last_date|e]; cbn [bind try_except];
    [|congruence].
  match goal with
  | |- try_except ?c _ <> _ -> _ => destruct c as [fc|e] eqn:Em
  end; cbn [try_except]; [|congruence].
  intros _. exists coeffs. eexists. split; [reflexivity|].
  split; [reflexivity|].
  eapply mapM_Forall; [|exact Em].
  intros i entry He. cbv beta in He.
  destruct (add_days last_date i); cbn [bind] in He; [|discriminate].
  injection He as <-.
  cbn [Forecast.upper_bound Forecast.lower_bound Forecast.forecasted_cost].
  repeat split. apply py_max0_nonneg.
Qed.

(** Two days of costs 100 and 110, two days ahead at 95 per cent: the fit
    is exact, the margin is 0, the forecasts are 120 and 130. *)
Lemma forecast_margin_is_constant_witness :
  @AdvancedAnalytics.forecast_with_confidence_intervals sample_runtime
    two_days 2 0.95 <> [] /\
  exists m,
    Forall (fun e =>
              Forecast.upper_bound e = fadd (Forecast.forecasted_cost e) m /\
              Forecast.lower_bound e
                = py_max0 (fsub (Forecast.forecasted_cost e) m) /\
              fle (of_Z 0) (Forecast.lower_bound e) = true)
           (@AdvancedAnalytics.forecast_with_confidence_intervals
              sample_runtime two_days 2 0.95).
Proof.
  assert (Hne : @AdvancedAnalytics.forecast_with_confidence_intervals
                  sample_runtime two_days 2 0.95 <> [])
    by (vm_compute; discriminate).
  split; [exact Hne|].
  destruct (forecast_margin_is_constant sample_runtime two_days 2 0.95 Hne)
    as (coeffs & m & _ & _ & Hall).
  exists m. exact Hall.
Defined.

(** ** The fit succeeds from two days on *)

Lemma fold_Qplus_ge (xs : list Q) (a : Q) :
  Forall (fun x => (0 <= x)%Q) xs -> (a <= fold_left Qplus xs a)%Q.
Proof.
  intro Hall. revert a.
  induction Hall as [|x rest Hx _ IH]; intro a; cbn [fold_left].
  - apply Qle_refl.
  - eapply Qle_trans; [|apply IH].
    rewrite <- (Qplus_0_r a) at 1. apply Qplus_le_r. exact Hx.
Qed.

Lemma squares_nonneg (l : list Q) :
  Forall (fun x => (0 <= x)%Q)
         (map (fun p => fst p * snd p)%Q (combine l l)).
Proof.
  induction l as [|x rest IH]; cbn [combine map]; constructor; [|exact IH].
  cbn [fst snd]. destruct (Qlt_le_dec x 0) as [Hneg|Hpos].
  - setoid_replace (x * x)%Q with ((- x) * (- x))%Q by ring.
    apply Qmult_le_0_compat; lra.
  - apply Qmult_le_0_compat; exact Hpos.
Qed.

Lemma polyfit1_ok (y : list Q) :
  (2 <= length y)%nat -> exists coeffs, polyfit1 y = Ok coeffs.
Proof.
  intro Hlen. unfold polyfit1.
  destruct y as [|y0 [|y1 rest]]; cbn [length] in Hlen; try lia.
  set (n := length (y0 :: y1 :: rest)).
  assert (Hpos : (0 < dot (arange n) (arange n))%Q).
  { unfold n. cbn [length]. unfold arange. cbn [seq map].
    unfold dot, Qsum. cbn [combine map fold_left fst snd].
    eapply Qlt_le_trans; [|apply fold_Qplus_ge, squares_nonneg].
    reflexivity. }
  assert (Hnz : Qeq_bool (dot (arange n) (arange n)) 0 = false).
  { apply Qeq_bool_false_iff. intro Hz. rewrite Hz in Hpos.
    exact (Qlt_irrefl 0 Hpos). }
  rewrite Hnz. eexists. reflexivity.
Qed.

(** ** Loops that may raise *)

Lemma mapM_length {A B : Type} (f : A -> result B) (xs : list A) (ys : list B) :
  mapM f xs = Ok ys -> length ys = length xs.
Proof.
  revert ys. induction xs as [|x rest IH]; intros ys Hm; cbn [mapM] in Hm.
  - injection Hm as <-. reflexivity.
  - destruct (f x) as [y|e]; cbn [bind] in Hm; [|discriminate].
    destruct (mapM f rest) as [ys'|e]; cbn [bind] in Hm; [|discriminate].
    injection Hm as <-. cbn [length]. now rewrite (IH ys').
Qed.

Lemma mapM_nth {A B : Type} (f : A -> result B) (xs : list A) (ys : list B)
      (k : nat) (y : B) :
  mapM f xs = Ok ys -> nth_error ys k = Some y ->
  exists x, nth_error xs k = Some x /\ f x = Ok y.
Proof.
  revert ys k. induction xs as [|x rest IH]; intros ys k Hm Hk;
    cbn [mapM] in Hm.
  - injection Hm as <-. destruct k; discriminate.
  - destruct (f x) as [y0|e] eqn:Ef; cbn [bind] in Hm; [|discriminate].
    destruct (mapM f rest) as [ys'|e]; cbn [bind] in Hm; [|discriminate].
    injection Hm as <-. destruct k as [|k]; cbn [nth_error] in *.
    + injection Hk as <-. now exists x.
    + apply (IH ys' k eq_refl Hk).
Qed.

Lemma mapM_all_ok {A B : Type} (f : A -> result B) (xs : list A) :
  (forall x, In x xs -> exists y, f x = Ok y) ->
  exists ys, mapM f xs = Ok ys.
Proof.
  induction xs as [|x rest IH]; intro Hall; cbn [mapM].
  - now exists [].
  - destruct (Hall x (or_introl eq_refl)) as [y Hy]. rewrite Hy. cbn [bind].
    destruct IH as [ys Hys]; [intros x' Hx'; apply Hall; now right|].
    rewrite Hys. cbn [bind]. now eexists.
Qed.

Lemma range1_nth (stop : Z) (k : nat) (i : Z) :
  nth_error (range1 stop) k = Some i -> i = 1 + Z.of_nat k.
Proof.
  unfold range1. rewrite nth_error_map.
  destruct (nth_error (seq 0 (Z.to_nat (stop - 1))) k) as [j|] eqn:E;
    cbn; [|discriminate].
  intro H. injection H as <-.
  pose proof (nth_error_nth _ _ 0%nat E) as Hnth.
  assert (Hk : (k < Z.to_nat (stop - 1))%nat).
  { assert (H : nth_error (seq 0 (Z.to_nat (stop - 1))) k <> None)
      by congruence.
    apply nth_error_Some in H. now rewrite length_seq in H. }
  rewrite seq_nth in Hnth by exact Hk. cbn in Hnth. now subst.
Qed.

Lemma range1_In (stop i : Z) : In i (range1 stop) -> 1 <= i < stop.
Proof.
  unfold range1. rewrite in_map_iff. intros (k & <- & Hk).
  apply in_seq in Hk. lia.
Qed.

Lemma range1_length (stop : Z) : length (range1 stop) = Z.to_nat (stop - 1).
Proof.
  unfold range1. now rewrite length_map, length_seq.
Qed.

Lemma add_days_ok (rt : Runtime) (d i r : Z) :
  add_days d i = Ok r -> r = d + i.
Proof.
  unfold add_days. destruct (date_in_range (d + i)); [|discriminate].
  intro H. now injection H.
Qed.

(** The observations of a single date form a series of length one. *)
Lemma single_date_series_length (col : Observation.t -> Q) (d : Z)
      (df : DataFrame) :
  df <> [] ->
  Forall (fun o => Observation.date o = d) df ->
  length (daily_sum col df) = 1%nat.
Proof.
  intros Hne Hall. now rewrite (daily_sum_single_date col d df Hne Hall).
Qed.

(** * Further properties of the two modules *)

(** ** Sums of rationals *)

Lemma Qsum_acc (xs : list Q) (a : Q) :
  (fold_left Qplus xs a == a + Qsum xs)%Q.
Proof.
  unfold Qsum. revert a.
  induction xs as [|x rest IH]; intro a; cbn [fold_left].
  - ring.
  - rewrite IH, (IH (0 + x)%Q). ring.
Qed.

Lemma Qsum_cons (x : Q) (xs : list Q) : (Qsum (x :: xs) == x + Qsum xs)%Q.
Proof.
  unfold Qsum at 1. cbn [fold_left]. rewrite Qsum_acc. ring.
Qed.

Lemma Qsum_nil : Qsum [] = 0%Q.
Proof.
  reflexivity.
Qed.

Lemma fle_Fin (x y : Q) : fle (Fin x) (Fin y) = true <-> (x <= y)%Q.
Proof.
  unfold fle, flt, feqb. rewrite orb_true_iff, Qltb_true_iff, Qeq_bool_iff.
  rewrite Qle_lteq. tauto.
Qed.

(** ** Python's [min], [max] and [index] *)

Lemma py_min_spec (x : Q) (rest : list Q) :
  (py_min x rest <= x)%Q /\
  Forall (fun y => (py_min x rest <= y)%Q) rest /\
  In (py_min x rest) (x :: rest).
Proof.
  unfold py_min. revert x.
  induction rest as [|y r IH]; intro x; cbn [fold_left].
  - split; [apply Qle_refl|]. split; [constructor | now left].
  - destruct (IH (if Qltb y x then y else x)) as (Hle & Hall & Hin).
    destruct (Qltb y x) eqn:E.
    + apply Qltb_true_iff in E.
      split; [eapply Qle_trans; [exact Hle | apply Qlt_le_weak, E]|].
      split; [constructor; assumption|].
      destruct Hin as [Hin|Hin]; [right; left; exact Hin | right; right; exact Hin].
    + apply Qltb_false_iff in E. apply Qnot_lt_le in E.
      split; [exact Hle|].
      split; [constructor; [eapply Qle_trans; eassumption | assumption]|].
      destruct Hin as [Hin|Hin]; [left; exact Hin | right; right; exact Hin].
Qed.

Lemma py_max_spec (x : Q) (rest : list Q) :
  (x <= py_max x rest)%Q /\
  Forall (fun y => (y <= py_max x rest)%Q) rest /\
  In (py_max x rest) (x :: rest).
Proof.
  unfold py_max. revert x.
  induction rest as [|y r IH]; intro x; cbn [fold_left].
  - split; [apply Qle_refl|]. split; [constructor | now left].
  - destruct (IH (if Qltb x y then y else x)) as (Hle & Hall & Hin).
    destruct (Qltb x y) eqn:E.
    + apply Qltb_true_iff in E.
      split; [eapply Qle_trans; [apply Qlt_le_weak, E | exact Hle]|].
      split; [constructor; assumption|].
      destruct Hin as [Hin|Hin]; [right; left; exact Hin | right; right; exact Hin].
    + apply Qltb_false_iff in E. apply Qnot_lt_le in E.
      split; [exact Hle|].
      split; [constructor; [eapply Qle_trans; eassumption | assumption]|].
      destruct Hin as [Hin|Hin]; [left; exact Hin | right; right; exact Hin].
Qed.


(** ** compare_cost_scenarios *)







(** ** generate_summary_stats *)

Lemma fold_Zmin_spec (l : list Z) (a : Z) :
  fold_left Z.min l a <= a /\
  Forall (fun d => fold_left Z.min l a <= d) l /\
  In (fold_left Z.min l a) (a :: l).
Proof.
  revert a. induction l as [|d rest IH]; intro a; cbn [fold_left].
  - split; [lia|]. split; [constructor | now left].
  - destruct (IH (Z.min a d)) as (Hle & Hall & Hin).
    split; [lia|]. split; [constructor; [lia | exact Hall]|].
    destruct Hin as [Hin|Hin]; [|right; right; exact Hin].
    rewrite <- Hin.
    destruct (Z.min_spec a d) as [[_ E]|[_ E]]; rewrite E;
      [left | right; left]; reflexivity.
Qed.

Lemma fold_Zmax_spec (l : list Z) (a : Z) :
  a <= fold_left Z.max l a /\
  Forall (fun d => d <= fold_left Z.max l a) l /\
  In (fold_left Z.max l a) (a :: l).
Proof.
  revert a. induction l as [|d rest IH]; intro a; cbn [fold_left].
  - split; [lia|]. split; [constructor | now left].
  - destruct (IH (Z.max a d)) as (Hle & Hall & Hin).
    split; [lia|]. split; [constructor; [lia | exact Hall]|].
    destruct Hin as [Hin|Hin]; [|right; right; exact Hin].
    rewrite <- Hin.
    destruct (Z.max_spec a d) as [[_ E]|[_ E]]; rewrite E;
      [right; left | left]; reflexivity.
Qed.

(** X3. On a non-empty frame the reported minimum and maximum are costs
    of rows and bound the cost of every row, and record_count is the
    number of rows. *)
Theorem summary_stats_min_max_bounds :
  forall (rt : Runtime) (cost_data : DataFrame),
    cost_data <> [] ->
    exists r lo hi,
      StatisticalAnalysis.generate_summary_stats cost_data = Some r /\
      SummaryStats.min_cost r = Fin lo /\
      SummaryStats.max_cost r = Fin hi /\
      SummaryStats.record_count r = Z.of_nat (length cost_data) /\
      In lo (map Observation.cost cost_data) /\
      In hi (map Observation.cost cost_data) /\
      Forall (fun o => (lo <= Observation.cost o <= hi)%Q) cost_data.
Proof.
  intros rt cost_data Hne.
  destruct cost_data as [|o rest]; [congruence|].
  set (c := Observation.cost o). set (cs := map Observation.cost rest).
  destruct (py_min_spec c cs) as (Hmin0 & Hmin & Hin_min).
  destruct (py_max_spec c cs) as (Hmax0 & Hmax & Hin_max).
  eexists. exists (py_min c cs), (py_max c cs).
  split; [reflexivity|].
  cbn [SummaryStats.min_cost SummaryStats.max_cost SummaryStats.record_count].
  repeat (split; [reflexivity|]).
  split; [exact Hin_min|]. split; [exact Hin_max|].
  constructor; [split; assumption|].
  unfold cs in Hmin, Hmax. rewrite Forall_map in Hmin, Hmax.
  rewrite Forall_forall in *. intros x Hx. split; auto.
Qed.

Lemma summary_stats_min_max_bounds_witness :
  mixed_frame <> [] /\
  exists r,
    @StatisticalAnalysis.generate_summary_stats sample_runtime mixed_frame
      = Some r /\
    same_value (SummaryStats.min_cost r) (Fin 20) /\
    same_value (SummaryStats.max_cost r) (Fin 50) /\
    SummaryStats.record_count r = 3.
Proof.
  split; [discriminate|].
  destruct (summary_stats_min_max_bounds sample_runtime mixed_frame)
    as (r & lo & hi & Hr & _); [discriminate|].
  exists r. split; [exact Hr|].
  vm_compute in Hr. injection Hr as <-. repeat split.
Defined.

(** X4. The reported date range starts at the earliest and ends at the
    latest date of the frame: both are dates of some row, and every row's
    date lies between them. *)
Theorem summary_stats_date_range :
  forall (rt : Runtime) (cost_data : DataFrame),
    cost_data <> [] ->
    exists r,
      StatisticalAnalysis.generate_summary_stats cost_data = Some r /\
      In (SummaryStats.date_range_start r) (map Observation.date cost_data) /\
      In (SummaryStats.date_range_end r) (map Observation.date cost_data) /\
      Forall (fun o => SummaryStats.date_range_start r <= Observation.date o
                       <= SummaryStats.date_range_end r) cost_data.
Proof.
  intros rt cost_data Hne.
  destruct cost_data as [|o rest]; [congruence|].
  eexists. split; [reflexivity|].
  cbn [SummaryStats.date_range_start SummaryStats.date_range_end].
  destruct (fold_Zmin_spec (map Observation.date rest) (Observation.date o))
    as (Hlo0 & Hlo & Hin_lo).
  destruct (fold_Zmax_spec (map Observation.date rest) (Observation.date o))
    as (Hhi0 & Hhi & Hin_hi).
  split; [exact Hin_lo|]. split; [exact Hin_hi|].
  constructor; [split; assumption|].
  rewrite Forall_map in Hlo, Hhi. rewrite Forall_forall in *.
  intros x Hx. split; auto.
Qed.

Lemma summary_stats_date_range_witness :
  mixed_frame <> [] /\
  exists r,
    @StatisticalAnalysis.generate_summary_stats sample_runtime mixed_frame
      = Some r /\
    SummaryStats.date_range_start r = 1 /\
    SummaryStats.date_range_end r = 2.
Proof.
  split; [discriminate|].
  destruct (summary_stats_date_range sample_runtime mixed_frame)
    as (r & Hr & _); [discriminate|].
  exists r. split; [exact Hr|].
  vm_compute in Hr. injection Hr as <-. split; reflexivity.
Defined.

(** ** calculate_unit_economics *)

Lemma unique_In (x : string) (l : list string) : In x (unique l) <-> In x l.
Proof.
  induction l as [|y rest IH]; cbn [unique]; [tauto|].
  cbn [In]. rewrite filter_In, IH, negb_true_iff, String.eqb_neq.
  destruct (String.eqb_spec y x) as [->|Hne]; [tauto|].
  split; [tauto|]. intros [H|H]; [tauto|]. right. split; [exact H|congruence].
Qed.

Lemma unique_NoDup (l : list string) : NoDup (unique l).
Proof.
  induction l as [|y rest IH]; cbn [unique]; constructor.
  - rewrite filter_In, negb_true_iff, String.eqb_neq. tauto.
  - apply NoDup_filter, IH.
Qed.

(** X5. The per-service breakdown lists every service of the frame
    exactly once and no other service. *)
Theorem unit_economics_services_listed_once :
  forall (cost_data : DataFrame) (business_metric : string),
    cost_data <> [] ->
    exists r,
      ScenarioAnalysis.calculate_unit_economics cost_data business_metric
        = Some r /\
      NoDup (map ServiceEconomics.service (UnitEconomics.by_service r)) /\
      forall s,
        In s (map ServiceEconomics.service (UnitEconomics.by_service r))
        <-> In s (map Observation.service cost_data).
Proof.
  intros cost_data business_metric Hne.
  unfold ScenarioAnalysis.calculate_unit_economics,
         ScenarioAnalysis.calculate_unit_economics_body.
  destruct cost_data as [|o rest] eqn:E; [congruence|].
  rewrite <- E in *. assert (Hempty : empty cost_data = false) by now subst.
  rewrite Hempty. cbn [try_except]. clear E Hempty.
  eexists. split; [reflexivity|].
  cbn [UnitEconomics.by_service].
  rewrite map_map. cbn [ServiceEconomics.service]. rewrite map_id.
  split; [apply unique_NoDup|]. intro s. apply unique_In.
Qed.

(** Three rows over S3 and EC2. *)
Lemma unit_economics_services_listed_once_witness :
  mixed_frame <> [] /\
  exists r,
    ScenarioAnalysis.calculate_unit_economics mixed_frame "requests" = Some r /\
    map ServiceEconomics.service (UnitEconomics.by_service r)
      = ["S3"; "EC2"]%string.
Proof.
  split; [discriminate|].
  destruct (unit_economics_services_listed_once mixed_frame "requests")
    as (r & Hr & _); [discriminate|].
  exists r. split; [exact Hr|].
  vm_compute in Hr. injection Hr as <-. reflexivity.
Defined.

(** ** The daily series *)

Lemma insert_row_keys {K : Type} (kcmp : K -> K -> comparison)
      (k : K) (o : Observation.t) (groups : list (K * list Observation.t))
      (d : K) :
  In d (map fst (insert_row kcmp k o groups)) ->
  d = k \/ In d (map fst groups).
Proof.
  induction groups as [|[k' rows] rest IH]; cbn [insert_row].
  - cbn. intros [H|[]]. now left.
  - destruct (kcmp k k'); cbn [map fst In].
    + tauto.
    + intros [H|H]; [now left | tauto].
    + intros [H|H]; [tauto|]. destruct (IH H); tauto.
Qed.

Lemma insert_row_sorted (k : Z) (o : Observation.t)
      (groups : list (Z * list Observation.t)) :
  StronglySorted Z.lt (map fst groups) ->
  StronglySorted Z.lt (map fst (insert_row Z.compare k o groups)).
Proof.
  induction groups as [|[k' rows] rest IH]; intro Hs; cbn [insert_row].
  - cbn. repeat constructor.
  - cbn [map fst] in Hs. inversion Hs as [|? ? Hrest Hall]; subst.
    destruct (Z.compare_spec k k') as [->|Hlt|Hgt]; cbn [map fst].
    + exact Hs.
    + constructor; [exact Hs|]. constructor; [exact Hlt|].
      eapply Forall_impl; [|exact Hall]. cbv beta. intros; lia.
    + constructor; [apply IH, Hrest|].
      apply Forall_forall. intros d Hd.
      destruct (insert_row_keys _ _ _ _ _ Hd) as [->|Hin]; [exact Hgt|].
      rewrite Forall_forall in Hall. apply Hall, Hin.
Qed.

Lemma insert_row_has_key {K : Type} (kcmp : K -> K -> comparison)
      (kcmp_eq : forall a b, kcmp a b = Eq -> a = b)
      (k : K) (o : Observation.t) (groups : list (K * list Observation.t)) :
  In k (map fst (insert_row kcmp k o groups)) /\
  forall d, In d (map fst groups) ->
            In d (map fst (insert_row kcmp k o groups)).
Proof.
  induction groups as [|[k' rows] rest [IHk IHd]]; cbn [insert_row].
  - cbn. tauto.
  - destruct (kcmp k k') eqn:E; cbn [map fst In].
    + apply kcmp_eq in E. subst. tauto.
    + tauto.
    + split; [tauto|]. intros d [H|H]; [tauto|]. right. apply IHd, H.
Qed.

(** The group sizes add up to the number of rows. *)
Lemma groupby_count {K : Type} (kcmp : K -> K -> comparison)
      (key : Observation.t -> K) (df : DataFrame) :
  fold_right (fun p n => (length (snd p) + n)%nat) 0%nat (groupby kcmp key df)
  = length df.
Proof.
  induction df as [|o rest IH]; cbn [groupby fold_right]; [reflexivity|].
  fold (groupby kcmp key rest). cbn [length]. rewrite <- IH.
  generalize (groupby kcmp key rest). intro groups.
  induction groups as [|[k' rows] gs IHg]; cbn [insert_row].
  - reflexivity.
  - destruct (kcmp (key o) k'); cbn [fold_right snd length].
    + lia.
    + lia.
    + rewrite IHg. lia.
Qed.

Lemma daily_sum_index (col : Observation.t -> Q) (df : DataFrame) :
  index (daily_sum col df) = map fst (groupby Z.compare Observation.date df).
Proof.
  unfold index, daily_sum. rewrite map_map. reflexivity.
Qed.

Lemma iloc_last_is_max (l : list Z) (x : Z) :
  StronglySorted Z.lt l -> iloc_last l = Ok x ->
  In x l /\ Forall (fun d => d <= x) l.
Proof.
  intros Hs Hlast. unfold iloc_last in Hlast.
  destruct (rev l) as [|y r] eqn:E; [discriminate|].
  injection Hlast as ->.
  assert (Hl : l = rev r ++ [x]).
  { rewrite <- (rev_involutive l), E. reflexivity. }
  subst l. split; [apply in_or_app; right; now left|].
  clear E. induction (rev r) as [|a t IH]; cbn in *.
  - repeat constructor. lia.
  - inversion Hs as [|? ? Hrest Hall]; subst.
    constructor; [|apply IH, Hrest].
    rewrite Forall_forall in Hall.
    assert (a < x) by (apply Hall, in_or_app; right; now left). lia.
Qed.

(** The daily series has strictly increasing dates, which are the dates
    of the frame. *)
Lemma daily_sum_sorted_dates :
  forall (col : Observation.t -> Q) (cost_data : DataFrame),
    StronglySorted Z.lt (index (daily_sum col cost_data)) /\
    (forall d, In d (index (daily_sum col cost_data))
               <-> In d (map Observation.date cost_data)).
Proof.
  intros col cost_data. rewrite daily_sum_index.
  split.
  - induction cost_data as [|o rest IH]; cbn [groupby fold_right].
    + constructor.
    + apply insert_row_sorted, IH.
  - intro d. induction cost_data as [|o rest IH]; cbn [groupby fold_right map].
    + tauto.
    + fold (groupby Z.compare Observation.date rest).
      destruct (insert_row_has_key Z.compare
                  (fun a b => proj1 (Z.compare_eq_iff a b))
                  (Observation.date o) o
                  (groupby Z.compare Observation.date rest)) as [Hk Hd].
      split.
      * intro H. apply insert_row_keys in H.
        destruct H as [->|H]; [now left | right; apply IH, H].
      * intros [<-|H]; [exact Hk | apply Hd, IH, H].
Qed.

(** The last date of the daily series is the latest date of the frame. *)
Lemma latest_date (col : Observation.t -> Q) (cost_data : DataFrame)
      (latest : Z) :
  iloc_last (index (daily_sum col cost_data)) = Ok latest ->
  In latest (map Observation.date cost_data) /\
  Forall (fun o => Observation.date o <= latest) cost_data.
Proof.
  intro Hlast.
  destruct (daily_sum_sorted_dates col cost_data) as (Hsorted & Hdates).
  destruct (iloc_last_is_max _ _ Hsorted Hlast) as [Hin Hmax].
  split; [apply Hdates, Hin|].
  apply Forall_forall. intros o Ho.
  rewrite Forall_forall in Hmax. apply Hmax, Hdates, in_map, Ho.
Qed.

(** A loop over [range(1, stop)] that dates its [i]-th entry [latest + i]:
    the entries that are returned are the first ones in order; all are
    returned when every day is representable, none when one is not. *)
Lemma mapM_raise {A B : Type} (f : A -> result B) (xs : list A) (x : A)
      (e : exn) :
  In x xs -> f x = Raise e -> exists e', mapM f xs = Raise e'.
Proof.
  induction xs as [|y rest IH]; intros Hin Hx; [contradiction|].
  cbn [mapM]. destruct Hin as [->|Hin].
  - rewrite Hx. now eexists.
  - destruct (f y); cbn [bind]; [|now eexists].
    destruct (IH Hin Hx) as [e' He']. rewrite He'. now eexists.
Qed.

Lemma dated_loop {B : Type} (rt : Runtime) (latest : Z) (g : Z -> Z -> B)
      (stop : Z) :
  let entries :=
    try_except (mapM (fun i => d <- add_days latest i ;; Ok (g d i))
                     (range1 stop)) [] in
  (forall k e, nth_error entries k = Some e ->
               e = g (latest + (1 + Z.of_nat k)) (1 + Z.of_nat k)) /\
  ((forall i, 1 <= i < stop -> date_in_range (latest + i) = true) ->
   length entries = Z.to_nat (stop - 1)) /\
  ((exists i, 1 <= i < stop /\ date_in_range (latest + i) = false) ->
   entries = []).
Proof.
  cbv zeta. split; [|split].
  - intros k e Hk.
    destruct (mapM _ (range1 stop)) as [ys|err] eqn:Em; cbn [try_except] in Hk;
      [|destruct k; discriminate].
    destruct (mapM_nth _ _ _ _ _ Em Hk) as (i & Hi & Hf).
    apply range1_nth in Hi. subst i. cbv beta in Hf.
    destruct (add_days latest (1 + Z.of_nat k)) as [d|err] eqn:Ed;
      cbn [bind] in Hf; [|discriminate].
    apply add_days_ok in Ed. subst d. now injection Hf.
  - intro Hall.
    destruct (mapM_all_ok (fun i => d <- add_days latest i ;; Ok (g d i))
                          (range1 stop)) as [ys Hys].
    { intros i Hi. apply range1_In in Hi. unfold add_days.
      rewrite (Hall i Hi). cbn [bind]. now eexists. }
    rewrite Hys. cbn [try_except].
    rewrite (mapM_length _ _ _ Hys). apply range1_length.
  - intros (i & Hi & Hout).
    assert (Hin : In i (range1 stop)).
    { unfold range1. apply in_map_iff. exists (Z.to_nat (i - 1)).
      split; [lia|]. apply in_seq. lia. }
    destruct (mapM_raise (fun i => d <- add_days latest i ;; Ok (g d i))
                         (range1 stop) i OverflowError Hin) as [e' He'].
    { unfold add_days. rewrite Hout. reflexivity. }
    rewrite He'. reflexivity.
Qed.

(** A row whose date is new to the table starts a group of its own. *)
Lemma insert_row_fresh (P : Z * list Observation.t -> Prop) (k : Z)
      (o : Observation.t) (groups : list (Z * list Observation.t)) :
  ~ In k (map fst groups) -> Forall P groups -> P (k, [o]) ->
  Forall P (insert_row Z.compare k o groups).
Proof.
  induction groups as [|[k' rows] rest IH]; intros Hk Hall Hp;
    cbn [insert_row].
  - constructor; [exact Hp | constructor].
  - destruct (Z.compare_spec k k') as [->|Hlt|Hgt].
    + exfalso. apply Hk. cbn. now left.
    + constructor; assumption.
    + inversion Hall as [|? ? Hhead Htail]; subst.
      constructor; [exact Hhead|]. apply IH; [|exact Htail | exact Hp].
      intro Hin. apply Hk. cbn. now right.
Qed.

(** With one row per date and the same value in every row, the daily
    series is constant. *)
Lemma daily_sum_one_row_per_date (col : Observation.t -> Q)
      (cost_data : DataFrame) (c : Q) :
  NoDup (map Observation.date cost_data) ->
  Forall (fun o => (col o == c)%Q) cost_data ->
  Forall (fun v => (v == c)%Q) (values (daily_sum col cost_data)).
Proof.
  intros Hnd Hc. unfold values, daily_sum. rewrite map_map. cbn [snd].
  rewrite Forall_map.
  induction cost_data as [|o rest IH]; cbn [groupby fold_right];
    [constructor|].
  cbn [map] in Hnd. inversion Hnd as [|? ? Hnew Hrest]; subst.
  inversion Hc as [|? ? Ho Hothers]; subst.
  fold (groupby Z.compare Observation.date rest).
  apply insert_row_fresh.
  - intro Hin. apply Hnew.
    rewrite <- (daily_sum_index col rest) in Hin.
    apply (proj2 (daily_sum_sorted_dates col rest)), Hin.
  - apply IH; assumption.
  - cbn [snd map]. rewrite Qsum_cons, Qsum_nil, Ho. ring.
Qed.

(** ** identify_anomalies *)

Lemma fdiv_NaN_r (x : float) : fdiv x NaN = NaN.
Proof.
  destruct x; reflexivity.
Qed.

Lemma flat_map_nil {A B : Type} (f : A -> list B) (l : list A) :
  (forall x, In x l -> f x = []) -> flat_map f l = [].
Proof.
  induction l as [|x rest IH]; intro Hf; cbn [flat_map]; [reflexivity|].
  rewrite (Hf x) by now left. rewrite IH; [reflexivity|].
  intros y Hy. apply Hf. now right.
Qed.

(** A zero deviation divided by any standard deviation never exceeds a
    non-negative threshold in absolute value. *)
Lemma zero_deviation_not_above (d t : Q) (std : float) :
  (d == 0)%Q -> (0 <= t)%Q ->
  fgt (fabs (fdiv (Fin d) std)) (Fin t) = false.
Proof.
  intros Hd Ht.
  assert (Hnum : Qnum d = 0) by (unfold Qeq in Hd; cbn in Hd; lia).
  destruct std as [b| | |]; cbn [fdiv]; try reflexivity.
  - destruct (Qeq_bool b 0).
    + cbn [fsgn]. rewrite Hnum. reflexivity.
    + cbn [fabs]. unfold fgt, flt. apply Qltb_false_iff.
      intro Hlt.
      assert (Hz : (Qabs (d / b) == 0)%Q).
      { assert (H0 : (d / b == 0)%Q) by (rewrite Hd; unfold Qdiv; ring).
        rewrite H0. reflexivity. }
      rewrite Hz in Hlt. lra.
  - cbn [fabs]. unfold fgt, flt. apply Qltb_false_iff.
    change (Qabs 0) with 0%Q. lra.
  - cbn [fabs]. unfold fgt, flt. apply Qltb_false_iff.
    change (Qabs 0) with 0%Q. lra.
Qed.

(** X6. With a single distinct date the sample standard deviation is NaN,
    every z-score is NaN, and no anomaly is reported, whatever the
    threshold. *)
Theorem identify_anomalies_single_day_none :
  forall (rt : Runtime) (cost_data : DataFrame) (threshold : Q),
    length (daily_sum Observation.cost cost_data) = 1%nat ->
    StatisticalAnalysis.identify_anomalies cost_data threshold = [].
Proof.
  intros rt cost_data threshold Hlen.
  unfold StatisticalAnalysis.identify_anomalies,
         StatisticalAnalysis.identify_anomalies_body.
  destruct cost_data as [|o rest]; [reflexivity|]. cbn [empty].
  destruct (daily_sum Observation.cost (o :: rest)) as [|[d v] [|p l]];
    cbn [length] in Hlen; try discriminate.
  cbn [values map pd_std length Nat.leb flat_map snd fst].
  change (fneb NaN (of_Z 0)) with true. cbv iota.
  rewrite fdiv_NaN_r. reflexivity.
Qed.

Lemma identify_anomalies_single_day_none_witness :
  length (daily_sum Observation.cost single_day) = 1%nat /\
  @StatisticalAnalysis.identify_anomalies sample_runtime single_day (-5) = [].
Proof.
  split; [reflexivity|].
  apply (identify_anomalies_single_day_none sample_runtime single_day (-5)).
  reflexivity.
Defined.

(** X7. When every date has a single row, every row has the same cost
    and the threshold is at least 2 (the default), no anomaly is reported:
    every day deviates from the mean by the same amount, here 0, so the
    z-score is 0 by the [std != 0] guard, or the absolute value of that
    deviation over the standard deviation, which does not reach the
    threshold. *)
Theorem identify_anomalies_constant_series_none :
  forall (rt : Runtime) (cost_data : DataFrame) (threshold c : Q),
    NoDup (map Observation.date cost_data) ->
    Forall (fun o => (Observation.cost o == c)%Q) cost_data ->
    (2 <= threshold)%Q ->
    StatisticalAnalysis.identify_anomalies cost_data threshold = [].
Proof.
  intros rt cost_data threshold c Hdates Hrows Hthr2.
  assert (Hthr : (0 <= threshold)%Q) by lra.
  pose proof (daily_sum_one_row_per_date Observation.cost cost_data c
                Hdates Hrows) as Hconst.
  unfold StatisticalAnalysis.identify_anomalies,
         StatisticalAnalysis.identify_anomalies_body.
  destruct cost_data as [|o rest] eqn:Edata; cbn [empty]; [reflexivity|].
  rewrite <- Edata in *.
  assert (Hne : cost_data <> []) by (rewrite Edata; discriminate).
  clear Edata. cbv zeta.
  set (daily := daily_sum Observation.cost cost_data) in *.
  assert (Hcosts : values daily <> [])
    by (apply daily_sum_nonempty; exact Hne).
  destruct (np_mean_constant c (values daily) Hcosts Hconst) as (m & Hm & Hmc).
  rewrite Hm. cbn [try_except].
  apply flat_map_nil. intros [d v] Hin. cbn [fst snd].
  assert (Hv : (v == c)%Q).
  { rewrite Forall_forall in Hconst. apply Hconst.
    unfold values. apply (in_map snd _ _ Hin). }
  assert (Hz : fgt (if fneb (pd_std (map Fin (values daily))) (of_Z 0)
                    then fabs (fdiv (fsub (Fin v) (Fin m))
                                    (pd_std (map Fin (values daily))))
                    else of_Z 0) (Fin threshold) = false).
  { destruct (fneb _ _).
    - change (fsub (Fin v) (Fin m)) with (Fin (v + - m)).
      apply zero_deviation_not_above; [rewrite Hv, Hmc; ring | exact Hthr].
    - unfold fgt, flt, of_Z. apply Qltb_false_iff.
      change (inject_Z 0) with 0%Q. lra. }
  rewrite Hz. reflexivity.
Qed.

(** Three days of cost 100 at the default threshold. *)
Lemma identify_anomalies_constant_series_none_witness :
  (NoDup (map Observation.date [obs 1 100 50; obs 2 100 50; obs 3 100 50]) /\
   Forall (fun o => (Observation.cost o == 100)%Q)
          [obs 1 100 50; obs 2 100 50; obs 3 100 50] /\
   (2 <= 2)%Q) /\
  @StatisticalAnalysis.identify_anomalies sample_runtime
    [obs 1 100 50; obs 2 100 50; obs 3 100 50] 2 = [].
Proof.
  assert (Hd : NoDup (map Observation.date
                          [obs 1 100 50; obs 2 100 50; obs 3 100 50])).
  { cbn. repeat constructor; cbn; intuition discriminate. }
  assert (Hc : Forall (fun o => (Observation.cost o == 100)%Q)
                      [obs 1 100 50; obs 2 100 50; obs 3 100 50]).
  { repeat constructor. }
  assert (H2 : (2 <= 2)%Q) by (vm_compute; discriminate).
  split; [repeat split; assumption|].
  exact (identify_anomalies_constant_series_none
           sample_runtime _ 2 100 Hd Hc H2).
Defined.

(** X8. Every reported anomaly is a day of the daily series, reported with
    that day's total cost, and its z-score exceeds the threshold (so it is
    not NaN). *)
Theorem identify_anomalies_sound :
  forall (rt : Runtime) (cost_data : DataFrame) (threshold : Q),
    Forall (fun a =>
              (exists v,
                  In (SimpleAnomaly.date a, v)
                     (daily_sum Observation.cost cost_data) /\
                  SimpleAnomaly.cost a = Fin v) /\
              fgt (SimpleAnomaly.z_score a) (Fin threshold) = true /\
              SimpleAnomaly.z_score a <> NaN)
           (StatisticalAnalysis.identify_anomalies cost_data threshold).
Proof.
  intros rt cost_data threshold.
  unfold StatisticalAnalysis.identify_anomalies,
         StatisticalAnalysis.identify_anomalies_body.
  destruct cost_data as [|o rest]; cbn [empty try_except]; [constructor|].
  cbv zeta. apply Forall_forall. intros a Ha.
  apply in_flat_map in Ha. destruct Ha as ([d v] & Hin & Ha).
  cbn [fst snd] in Ha.
  match type of Ha with
  | In _ (if ?b then _ else _) => destruct b eqn:Hz
  end; [|contradiction].
  destruct Ha as [<-|[]].
  cbn [SimpleAnomaly.date SimpleAnomaly.cost SimpleAnomaly.z_score].
  split; [exists v; split; [exact Hin | reflexivity]|].
  split; [exact Hz|].
  intro Hnan. rewrite Hnan in Hz. discriminate.
Qed.

(** The spike of cost 100 after four days of cost 10, threshold 1.5. *)
Lemma identify_anomalies_sound_witness :
  map SimpleAnomaly.date
      (@StatisticalAnalysis.identify_anomalies sample_runtime spike_series 1.5)
  = [5] /\
  Forall (fun a => fgt (SimpleAnomaly.z_score a) (Fin 1.5) = true)
         (@StatisticalAnalysis.identify_anomalies sample_runtime spike_series 1.5).
Proof.
  split; [vm_compute; reflexivity|].
  eapply Forall_impl;
    [|exact (identify_anomalies_sound sample_runtime spike_series 1.5)].
  intros a (_ & Hz & _). exact Hz.
Defined.

(** ** forecast_costs *)

Lemma py_max0_not_nan (x : float) : py_max0 x <> NaN.
Proof.
  unfold py_max0, fgt. destruct x; cbn; try discriminate.
  destruct (Qltb 0 q); discriminate.
Qed.

Lemma forecast_costs_entries (rt : Runtime) (cost_data : DataFrame)
      (days_ahead : Z) :
  cost_data <> [] ->
  exists latest slope,
    iloc_last (index (daily_sum Observation.cost cost_data)) = Ok latest /\
    StatisticalAnalysis.forecast_costs cost_data days_ahead
    = try_except
        (mapM (fun i =>
                 d <- add_days latest i ;;
                 Ok {| SimpleForecast.date := d;
                       SimpleForecast.forecasted_cost :=
                         py_max0
                           (fadd (np_mean
                                    (map Fin (values (daily_sum Observation.cost
                                                                cost_data))))
                                 (fmul slope (of_Z i))) |})
              (range1 (days_ahead + 1))) [].
Proof.
  intro Hne.
  assert (Hidx : index (daily_sum Observation.cost cost_data) <> []).
  { intro Hnil. apply map_eq_nil in Hnil.
    apply (daily_sum_nonempty Observation.cost cost_data Hne).
    unfold values. now rewrite Hnil. }
  destruct (iloc_last_ok _ Hidx) as [latest Hlast].
  exists latest. eexists. split; [exact Hlast|].
  unfold StatisticalAnalysis.forecast_costs,
         StatisticalAnalysis.forecast_costs_body.
  destruct cost_data as [|o rest]; [congruence|]. cbn [empty].
  cbv zeta. rewrite Hlast. reflexivity.
Qed.

Lemma try_except_mapM_Forall {A B : Type} (P : B -> Prop) (f : A -> result B)
      (xs : list A) :
  (forall x y, f x = Ok y -> P y) -> Forall P (try_except (mapM f xs) []).
Proof.
  intro Hf. destruct (mapM f xs) as [ys|e] eqn:Em; cbn [try_except];
    [|constructor].
  exact (mapM_Forall P f xs ys Hf Em).
Qed.

(** X10. Every cost that the simple forecaster reports is a number at
    least 0, never NaN. *)
Theorem forecast_costs_never_negative :
  forall (rt : Runtime) (cost_data : DataFrame) (days_ahead : Z),
    Forall (fun e =>
              fle (of_Z 0) (SimpleForecast.forecasted_cost e) = true /\
              SimpleForecast.forecasted_cost e <> NaN)
           (StatisticalAnalysis.forecast_costs cost_data days_ahead).
Proof.
  intros rt cost_data days_ahead.
  destruct cost_data as [|o rest] eqn:E; [constructor|].
  rewrite <- E. assert (Hne : cost_data <> []) by (subst; discriminate).
  destruct (forecast_costs_entries rt cost_data days_ahead Hne)
    as (latest & slope & _ & ->).
  apply try_except_mapM_Forall. intros i e He. cbv beta in He.
  destruct (add_days latest i); cbn [bind] in He; [|discriminate].
  injection He as <-. cbn [SimpleForecast.forecasted_cost].
  split; [apply py_max0_nonneg | apply py_max0_not_nan].
Qed.

(** Costs 100 then 10: the falling line is cut off at 0. *)
Lemma forecast_costs_never_negative_witness :
  map SimpleForecast.forecasted_cost
      (@StatisticalAnalysis.forecast_costs sample_runtime
         [obs 1 100 50; obs 2 10 5] 3)
  = [Fin 0; Fin 0; Fin 0] /\
  Forall (fun e => fle (of_Z 0) (SimpleForecast.forecasted_cost e) = true)
         (@StatisticalAnalysis.forecast_costs sample_runtime
            [obs 1 100 50; obs 2 10 5] 3).
Proof.
  split; [vm_compute; reflexivity|].
  eapply Forall_impl;
    [|exact (forecast_costs_never_negative sample_runtime
               [obs 1 100 50; obs 2 10 5] 3)].
  intros e [H _]. exact H.
Defined.

Lemma fadd_NaN_r (x : float) : fadd x NaN = NaN.
Proof.
  destruct x; reflexivity.
Qed.

(** With one point the regression quotient is [0/0]. *)
Lemma slope_single_point (v : Q) :
  let x := arange 1 in
  let n := inject_Z (Z.of_nat (length x)) in
  fdiv (Fin (n * dot x [v] - Qsum x * Qsum [v])%Q)
       (Fin (n * dot x x - Qsum x * Qsum x)%Q) = NaN.
Proof.
  cbv zeta.
  set (num := (inject_Z (Z.of_nat (length (arange 1))) * dot (arange 1) [v]
               - Qsum (arange 1) * Qsum [v])%Q).
  assert (Hnum : (num == 0)%Q).
  { unfold num, dot, arange. cbn [seq map combine length fst snd].
    rewrite !Qsum_cons, !Qsum_nil.
    change (inject_Z (Z.of_nat 0)) with 0%Q.
    change (inject_Z (Z.of_nat 1)) with 1%Q. ring. }
  clearbody num.
  assert (Hz : Qnum num = 0) by (unfold Qeq in Hnum; cbn in Hnum; lia).
  unfold fdiv.
  change (Qeq_bool (inject_Z (Z.of_nat (length (arange 1)))
                    * dot (arange 1) (arange 1)
                    - Qsum (arange 1) * Qsum (arange 1)) 0) with true.
  cbn [fsgn]. rewrite Hz. reflexivity.
Qed.

(** X11. With a single distinct date the regression slope is NaN, and the
    clamp [max(0, ...)] turns every reported forecast into 0, whatever the
    cost of that day. *)
Theorem forecast_costs_single_day_all_zero :
  forall (rt : Runtime) (cost_data : DataFrame) (days_ahead : Z),
    length (daily_sum Observation.cost cost_data) = 1%nat ->
    Forall (fun e => SimpleForecast.forecasted_cost e = Fin 0)
           (StatisticalAnalysis.forecast_costs cost_data days_ahead).
Proof.
  intros rt cost_data days_ahead Hlen.
  unfold StatisticalAnalysis.forecast_costs,
         StatisticalAnalysis.forecast_costs_body.
  destruct cost_data as [|o rest]; [discriminate|]. cbn [empty].
  destruct (daily_sum Observation.cost (o :: rest)) as [|[d v] [|p l]];
    cbn [length] in Hlen; try discriminate.
  cbv zeta. cbn [values map snd length index fst].
  rewrite (slope_single_point v).
  change (iloc_last [d]) with (Ok d). cbn [bind].
  apply try_except_mapM_Forall. intros i e He. cbv beta in He.
  destruct (add_days d i); cbn [bind] in He; [|discriminate].
  injection He as <-. cbn [SimpleForecast.forecasted_cost].
  change (fmul NaN (of_Z i)) with NaN. rewrite ?fadd_NaN_r. reflexivity.
Qed.

(** One day of cost 100: the forecast for each of the next 30 days is 0. *)
Lemma forecast_costs_single_day_all_zero_witness :
  length (daily_sum Observation.cost single_day) = 1%nat /\
  length (@StatisticalAnalysis.forecast_costs sample_runtime single_day 30)
    = 30%nat /\
  Forall (fun e => SimpleForecast.forecasted_cost e = Fin 0)
         (@StatisticalAnalysis.forecast_costs sample_runtime single_day 30).
Proof.
  split; [reflexivity|]. split; [vm_compute; reflexivity|].
  apply (forecast_costs_single_day_all_zero sample_runtime single_day 30).
  reflexivity.
Defined.

(** X12. The [k]-th entry of the simple forecast (from 0), when there is
    one, is dated [k + 1] days after the latest date of the frame. All
    [days_ahead] entries are returned when each of these days is within the
    range of the date type; when one is not, the date addition raises and
    the result is empty. *)
Theorem forecast_costs_dates_follow_latest :
  forall (rt : Runtime) (cost_data : DataFrame) (days_ahead : Z),
    cost_data <> [] ->
    exists latest,
      In latest (map Observation.date cost_data) /\
      Forall (fun o => Observation.date o <= latest) cost_data /\
      (forall k e,
          nth_error (StatisticalAnalysis.forecast_costs cost_data days_ahead) k
            = Some e ->
          SimpleForecast.date e = latest + 1 + Z.of_nat k) /\
      ((forall i, 1 <= i <= days_ahead ->
                  date_in_range (latest + i) = true) ->
       length (StatisticalAnalysis.forecast_costs cost_data days_ahead)
         = Z.to_nat days_ahead) /\
      ((exists i, 1 <= i <= days_ahead /\ date_in_range (latest + i) = false) ->
       StatisticalAnalysis.forecast_costs cost_data days_ahead = []).
Proof.
  intros rt cost_data days_ahead Hne.
  destruct (forecast_costs_entries rt cost_data days_ahead Hne)
    as (latest & slope & Hlast & ->).
  destruct (latest_date _ _ _ Hlast) as [Hin Hmax].
  exists latest. split; [exact Hin|]. split; [exact Hmax|].
  match goal with
  | |- context [mapM (fun i => d <- add_days latest i ;; Ok (@?g d i)) _] =>
      destruct (dated_loop rt latest g (days_ahead + 1))
        as (Hnth & Hlen & Hnone)
  end.
  cbv beta in Hnth, Hlen, Hnone.
  split; [|split].
  - intros k e Hk. rewrite (Hnth k e Hk). cbn [SimpleForecast.date]. lia.
  - intro Hall. rewrite Hlen; [f_equal; lia|].
    intros i Hi. apply Hall. lia.
  - intros (i & Hi & Hout). apply Hnone. exists i. split; [lia | exact Hout].
Qed.

(** Dates 1, 2 and 2: the two forecast days are 3 and 4; a horizon that
    leaves the range of the date type yields no forecast at all. *)
Lemma forecast_costs_dates_follow_latest_witness :
  mixed_frame <> [] /\
  map SimpleForecast.date
      (@StatisticalAnalysis.forecast_costs sample_runtime mixed_frame 2)
  = [3; 4] /\
  @StatisticalAnalysis.forecast_costs sample_runtime mixed_frame 106751 = [].
Proof.
  split; [discriminate|].
  destruct (forecast_costs_dates_follow_latest sample_runtime mixed_frame
              106751) as (latest & Hin & _ & _ & _ & Hnone); [discriminate|].
  split; [vm_compute; reflexivity|].
  apply Hnone. exists 106751. split; [lia|].
  destruct Hin as [<-|[<-|[<-|[]]]]; vm_compute; reflexivity.
Defined.

(** ** analyze_service_distribution *)

Lemma insert_by_cost_In (r x : ServiceRow) (rs : list ServiceRow) :
  In x (insert_by_cost r rs) <-> x = r \/ In x rs.
Proof.
  induction rs as [|r' rest IH]; cbn [insert_by_cost].
  - cbn. intuition congruence.
  - destruct (Qle_bool (s_total_cost r') (s_total_cost r)); cbn [In].
    + intuition congruence.
    + rewrite IH. intuition congruence.
Qed.

Lemma sort_by_cost_desc_In (x : ServiceRow) (rs : list ServiceRow) :
  In x (sort_by_cost_desc rs) <-> In x rs.
Proof.
  induction rs as [|r rest IH]; cbn [sort_by_cost_desc fold_right]; [tauto|].
  fold (sort_by_cost_desc rest). rewrite insert_by_cost_In, IH. cbn.
  intuition congruence.
Qed.

Lemma insert_by_cost_sorted (r : ServiceRow) (rs : list ServiceRow) :
  StronglySorted (fun a b => (s_total_cost b <= s_total_cost a)%Q) rs ->
  StronglySorted (fun a b => (s_total_cost b <= s_total_cost a)%Q)
                 (insert_by_cost r rs).
Proof.
  induction rs as [|r' rest IH]; intro Hs; cbn [insert_by_cost].
  - repeat constructor.
  - inversion Hs as [|? ? Hrest Hall]; subst.
    destruct (Qle_bool (s_total_cost r') (s_total_cost r)) eqn:E.
    + apply Qle_bool_iff in E. constructor; [exact Hs|].
      constructor; [exact E|].
      eapply Forall_impl; [|exact Hall]. cbv beta. intros a Ha.
      eapply Qle_trans; eassumption.
    + assert (Hlt : (s_total_cost r < s_total_cost r')%Q).
      { apply Qnot_le_lt. intro Hle. apply Qle_bool_iff in Hle. congruence. }
      constructor; [apply IH, Hrest|].
      apply Forall_forall. intros x Hx. apply insert_by_cost_In in Hx.
      destruct Hx as [->|Hx]; [apply Qlt_le_weak, Hlt|].
      rewrite Forall_forall in Hall. apply Hall, Hx.
Qed.

Lemma sort_by_cost_desc_sorted (rs : list ServiceRow) :
  StronglySorted (fun a b => (s_total_cost b <= s_total_cost a)%Q)
                 (sort_by_cost_desc rs).
Proof.
  induction rs as [|r rest IH]; cbn [sort_by_cost_desc fold_right].
  - constructor.
  - apply insert_by_cost_sorted, IH.
Qed.

(** Sorting keeps the sum of any rational column and of any count. *)
Lemma insert_by_cost_count (h : ServiceRow -> Z) (r : ServiceRow)
      (rs : list ServiceRow) :
  fold_right Z.add 0 (map h (insert_by_cost r rs))
  = h r + fold_right Z.add 0 (map h rs).
Proof.
  induction rs as [|r' rest IH]; cbn [insert_by_cost].
  - reflexivity.
  - destruct (Qle_bool (s_total_cost r') (s_total_cost r));
      cbn [map fold_right]; [reflexivity|].
    rewrite IH. lia.
Qed.

Lemma sort_by_cost_desc_count (h : ServiceRow -> Z) (rs : list ServiceRow) :
  fold_right Z.add 0 (map h (sort_by_cost_desc rs))
  = fold_right Z.add 0 (map h rs).
Proof.
  induction rs as [|r rest IH]; cbn [sort_by_cost_desc fold_right map].
  - reflexivity.
  - fold (sort_by_cost_desc rest). rewrite insert_by_cost_count, IH.
    reflexivity.
Qed.

(** X13. The services are reported in descending order of total cost:
    every entry's total is at most the total of each entry before it. *)
Theorem service_distribution_sorted :
  forall cost_data : DataFrame,
    StronglySorted
      (fun a b => fle (ServiceCost.total_cost b) (ServiceCost.total_cost a)
                  = true)
      (StatisticalAnalysis.analyze_service_distribution cost_data).
Proof.
  intro cost_data.
  unfold StatisticalAnalysis.analyze_service_distribution,
         StatisticalAnalysis.analyze_service_distribution_body.
  destruct cost_data as [|o rest]; cbn [empty try_except]; [constructor|].
  cbv zeta.
  match goal with
  | |- StronglySorted _ (map _ (sort_by_cost_desc ?l)) =>
      pose proof (sort_by_cost_desc_sorted l) as Hs;
      induction Hs as [|a l' _ IH Hall]
  end; cbn [map]; constructor; [exact IH|].
  rewrite Forall_map. eapply Forall_impl; [|exact Hall].
  cbv beta. intros b Hb. cbn [ServiceCost.total_cost]. apply fle_Fin, Hb.
Qed.

Lemma insert_row_rows {K : Type} (kcmp : K -> K -> comparison)
      (k : K) (o : Observation.t) (groups : list (K * list Observation.t))
      (g : K * list Observation.t) (x : Observation.t) :
  In g (insert_row kcmp k o groups) -> In x (snd g) ->
  x = o \/ exists g', In g' groups /\ In x (snd g').
Proof.
  induction groups as [|[k' rows] rest IH]; cbn [insert_row].
  - intros [<-|[]] [<-|[]]. now left.
  - destruct (kcmp k k'); cbn [In].
    + intros [<-|Hg] Hx.
      * cbn [snd] in Hx. destruct Hx as [<-|Hx]; [now left|].
        right. exists (k', rows). split; [now left | exact Hx].
      * right. exists g. split; [now right | exact Hx].
    + intros [<-|[<-|Hg]] Hx.
      * destruct Hx as [<-|[]]. now left.
      * right. exists (k', rows). split; [now left | exact Hx].
      * right. exists g. split; [now right | exact Hx].
    + intros [<-|Hg] Hx.
      * right. exists (k', rows). split; [now left | exact Hx].
      * destruct (IH Hg Hx) as [->|(g' & Hg' & Hx')]; [now left|].
        right. exists g'. split; [now right | exact Hx'].
Qed.

(** Every row of a group is a row of the frame. *)
Lemma groupby_rows {K : Type} (kcmp : K -> K -> comparison)
      (key : Observation.t -> K) (df : DataFrame)
      (g : K * list Observation.t) (x : Observation.t) :
  In g (groupby kcmp key df) -> In x (snd g) -> In x df.
Proof.
  revert g. induction df as [|o rest IH]; intros g Hg Hx;
    cbn [groupby fold_right] in Hg; [contradiction|].
  destruct (insert_row_rows _ _ _ _ _ _ Hg Hx) as [->|(g' & Hg' & Hx')].
  - now left.
  - right. exact (IH g' Hg' Hx').
Qed.

Lemma Qsum_nonpos (xs : list Q) :
  Forall (fun x => (x <= 0)%Q) xs -> (Qsum xs <= 0)%Q.
Proof.
  induction 1 as [|x rest Hx _ IH]; [rewrite Qsum_nil; lra|].
  rewrite Qsum_cons. lra.
Qed.

(** X14. When no cost is positive the grand total is not greater than 0,
    and the [total > 0] guard sets every percentage to 0. *)
Theorem service_distribution_no_positive_cost :
  forall cost_data : DataFrame,
    Forall (fun o => (Observation.cost o <= 0)%Q) cost_data ->
    Forall (fun e => ServiceCost.percentage e = Fin 0)
           (StatisticalAnalysis.analyze_service_distribution cost_data).
Proof.
  intros cost_data Hcosts.
  unfold StatisticalAnalysis.analyze_service_distribution,
         StatisticalAnalysis.analyze_service_distribution_body.
  destruct cost_data as [|o rest] eqn:E; cbn [empty try_except];
    [constructor|].
  rewrite <- E in *. clear E. cbv zeta.
  set (frame := StatisticalAnalysis.service_frame cost_data).
  set (total := Qsum (map s_total_cost frame)).
  assert (Hrows : Forall (fun r => (s_total_cost r <= 0)%Q) frame).
  { unfold frame, StatisticalAnalysis.service_frame.
    rewrite Forall_map. apply Forall_forall. intros g Hg.
    cbn [s_total_cost]. apply Qsum_nonpos. rewrite Forall_map.
    apply Forall_forall. intros x Hx.
    rewrite Forall_forall in Hcosts. apply Hcosts.
    exact (groupby_rows _ _ _ _ _ Hg Hx). }
  assert (Htotal : (total <= 0)%Q).
  { unfold total. apply Qsum_nonpos. rewrite Forall_map. exact Hrows. }
  assert (Hgt : fgt (Fin total) (of_Z 0) = false).
  { unfold fgt, flt, of_Z. apply Qltb_false_iff.
    change (inject_Z 0) with 0%Q. lra. }
  rewrite Hgt.
  rewrite Forall_map. apply Forall_forall. intros x Hx.
  apply sort_by_cost_desc_In, in_map_iff in Hx.
  destruct Hx as (r & <- & _). reflexivity.
Qed.

(** A refund of 3 and a free day: both percentages are 0. *)
Lemma service_distribution_no_positive_cost_witness :
  Forall (fun o => (Observation.cost o <= 0)%Q) [obs 1 0 5; obs 2 (-3) 1] /\
  StatisticalAnalysis.analyze_service_distribution [obs 1 0 5; obs 2 (-3) 1]
    <> [] /\
  Forall (fun e => ServiceCost.percentage e = Fin 0)
         (StatisticalAnalysis.analyze_service_distribution
            [obs 1 0 5; obs 2 (-3) 1]).
Proof.
  assert (H : Forall (fun o => (Observation.cost o <= 0)%Q)
                     [obs 1 0 5; obs 2 (-3) 1]).
  { repeat constructor; vm_compute; discriminate. }
  split; [exact H|]. split; [vm_compute; discriminate|].
  exact (service_distribution_no_positive_cost _ H).
Defined.

(** X15. The usage counts of the reported services add up to the number of
    rows of the frame. *)
Theorem service_distribution_counts :
  forall cost_data : DataFrame,
    fold_right Z.add 0
               (map ServiceCost.usage_count
                    (StatisticalAnalysis.analyze_service_distribution
                       cost_data))
    = Z.of_nat (length cost_data).
Proof.
  intro cost_data.
  unfold StatisticalAnalysis.analyze_service_distribution,
         StatisticalAnalysis.analyze_service_distribution_body.
  destruct cost_data as [|o rest] eqn:E; [reflexivity|].
  rewrite <- E in *. assert (Hempty : empty cost_data = false) by now subst.
  rewrite Hempty. cbn [try_except]. clear E Hempty. cbv zeta.
  rewrite map_map. cbn [ServiceCost.usage_count].
  rewrite (sort_by_cost_desc_count (fun r => Z.of_nat (s_count r))).
  rewrite map_map. cbn [StatisticalAnalysis.set_percentage s_count].
  unfold StatisticalAnalysis.service_frame. rewrite map_map. cbn [s_count].
  rewrite <- (groupby_count String.compare Observation.service cost_data).
  generalize (groupby String.compare Observation.service cost_data).
  intro groups. induction groups as [|g gs IH]; cbn [map fold_right].
  - reflexivity.
  - rewrite IH, length_map. lia.
Qed.

(** ** More on forecast_with_confidence_intervals *)

(** X16. With at least two distinct dates, the [k]-th entry of the
    forecast (from 0), when there is one, is dated [k + 1] days after the
    latest date of the frame and carries the requested confidence. All
    [days_ahead] entries are returned when each of these days is within the
    range of the date type; when one is not, the date addition raises and
    the result is empty. *)
Theorem forecast_ci_dates_follow_latest :
  forall (rt : Runtime) (cost_data : DataFrame) (days_ahead : Z)
         (confidence : Q),
    (2 <= length (daily_sum Observation.cost cost_data))%nat ->
    exists latest,
      In latest (map Observation.date cost_data) /\
      Forall (fun o => Observation.date o <= latest) cost_data /\
      (forall k e,
          nth_error (AdvancedAnalytics.forecast_with_confidence_intervals
                       cost_data days_ahead confidence) k = Some e ->
          Forecast.date e = latest + 1 + Z.of_nat k /\
          Forecast.confidence e = confidence) /\
      ((forall i, 1 <= i <= days_ahead ->
                  date_in_range (latest + i) = true) ->
       length (AdvancedAnalytics.forecast_with_confidence_intervals
                 cost_data days_ahead confidence)
         = Z.to_nat days_ahead) /\
      ((exists i, 1 <= i <= days_ahead /\ date_in_range (latest + i) = false) ->
       AdvancedAnalytics.forecast_with_confidence_intervals
         cost_data days_ahead confidence = []).
Proof.
  intros rt cost_data days_ahead confidence Hlen.
  assert (Hy : (2 <= length (values (daily_sum Observation.cost cost_data)))%nat)
    by (unfold values; now rewrite length_map).
  destruct (polyfit1_ok _ Hy) as [coeffs Hfit].
  assert (Hidx : index (daily_sum Observation.cost cost_data) <> []).
  { intro Hnil. apply map_eq_nil in Hnil. rewrite Hnil in Hlen.
    cbn in Hlen. lia. }
  destruct (iloc_last_ok _ Hidx) as [latest Hlast].
  destruct (latest_date _ _ _ Hlast) as [Hin Hmax].
  exists latest. split; [exact Hin|]. split; [exact Hmax|].
  unfold AdvancedAnalytics.forecast_with_confidence_intervals,
         AdvancedAnalytics.forecast_with_confidence_intervals_body.
  destruct cost_data as [|o rest]; [cbn in Hlen; lia|]. cbn [empty].
  cbv zeta. rewrite Hfit. cbn [bind]. rewrite Hlast. cbn [bind].
  match goal with
  | |- context [mapM (fun i => d <- add_days latest i ;; Ok (@?g d i)) _] =>
      destruct (dated_loop rt latest g (days_ahead + 1))
        as (Hnth & Hall & Hnone)
  end.
  cbv beta in Hnth, Hall, Hnone.
  split; [|split].
  - intros k e Hk. rewrite (Hnth k e Hk).
    cbn [Forecast.date Forecast.confidence]. split; [lia | reflexivity].
  - intro Hok. rewrite Hall; [f_equal; lia|].
    intros i Hi. apply Hok. lia.
  - intros (i & Hi & Hout). apply Hnone. exists i. split; [lia | exact Hout].
Qed.

Lemma forecast_ci_dates_follow_latest_witness :
  (2 <= length (daily_sum Observation.cost two_days))%nat /\
  map Forecast.date
      (@AdvancedAnalytics.forecast_with_confidence_intervals sample_runtime
         two_days 3 0.95)
  = [3; 4; 5] /\
  @AdvancedAnalytics.forecast_with_confidence_intervals sample_runtime
    two_days 106751 0.95 = [].
Proof.
  assert (H : (2 <= length (daily_sum Observation.cost two_days))%nat)
    by (vm_compute; lia).
  split; [exact H|].
  destruct (forecast_ci_dates_follow_latest sample_runtime two_days 106751
              0.95 H) as (latest & Hin & _ & _ & _ & Hnone).
  split; [vm_compute; reflexivity|].
  apply Hnone. exists 106751. split; [lia|].
  destruct Hin as [<-|[<-|[]]]; vm_compute; reflexivity.
Defined.

(** ** More on calculate_trends *)

Lemma iloc_last_In {A : Type} (xs : list A) (x : A) :
  iloc_last xs = Ok x -> In x xs.
Proof.
  unfold iloc_last. destruct (rev xs) as [|y r] eqn:E; [discriminate|].
  intro H. injection H as ->. apply in_rev. rewrite E. now left.
Qed.

(** X17. When the daily series holds at least [window >= 1] days, the
    reported average is the mean of the last [window] daily values. *)
Theorem calculate_trends_full_window_average :
  forall (cost_data : DataFrame) (window : Z),
    1 <= window <= Z.of_nat (length (daily_sum Observation.cost cost_data)) ->
    exists r,
      DataProcessor.calculate_trends cost_data window = Some r /\
      Trends.average_daily_cost r
      = Fin (Qsum (skipn (length (daily_sum Observation.cost cost_data)
                          - Z.to_nat window)
                         (values (daily_sum Observation.cost cost_data)))
             / inject_Z window).
Proof.
  intros cost_data window [Hw1 Hwn].
  assert (Hne : cost_data <> []).
  { intro E. subst. cbn in Hwn. lia. }
  assert (Hw : 0 <= window) by lia.
  destruct (calculate_trends_returns cost_data window Hne Hw)
    as (first & last & l & avg & _ & _ & Hroll & Havg & Hr).
  eexists. split; [exact Hr|]. cbn [Trends.average_daily_cost].
  pose proof (daily_sum_nonempty Observation.cost cost_data Hne) as Hd.
  destruct (rolling_mean_last window _ Hw Hd) as (l' & Hroll' & Havg').
  rewrite Hroll in Hroll'. injection Hroll' as <-.
  rewrite Havg in Havg'. injection Havg' as ->.
  cbv zeta.
  set (xs := values (daily_sum Observation.cost cost_data)) in *.
  assert (Hxs : length xs = length (daily_sum Observation.cost cost_data))
    by (unfold xs, values; apply length_map).
  rewrite <- Hxs in *.
  assert (Hwin : window_at (Z.to_nat window) xs (length xs - 1)
                 = skipn (length xs - Z.to_nat window) xs).
  { unfold window_at.
    replace (length xs - 1 + 1)%nat with (length xs) by lia.
    now rewrite firstn_all. }
  rewrite Hwin.
  assert (Hlen : length (skipn (length xs - Z.to_nat window) xs)
                 = Z.to_nat window)
    by (rewrite length_skipn; lia).
  rewrite Hlen.
  replace (Z.to_nat window <=? Z.to_nat window)%nat with true
    by (symmetry; apply Nat.leb_refl).
  replace (0 <? Z.to_nat window)%nat with true
    by (symmetry; apply Nat.ltb_lt; lia).
  cbn [andb]. unfold of_nat. rewrite Z2Nat.id by lia.
  apply fdiv_Fin. intro Hz. unfold Qeq in Hz. cbn in Hz. lia.
Qed.

(** [100, 90, 80] under a window of 2: the average of 90 and 80. *)
Lemma calculate_trends_full_window_average_witness :
  (1 <= 2 <= Z.of_nat (length (daily_sum Observation.cost series_100_90_80))) /\
  exists r,
    DataProcessor.calculate_trends series_100_90_80 2 = Some r /\
    same_value (Trends.average_daily_cost r) (Fin 85).
Proof.
  assert (H : 1 <= 2
              <= Z.of_nat (length (daily_sum Observation.cost series_100_90_80)))
    by (vm_compute; split; discriminate).
  split; [exact H|].
  destruct (calculate_trends_full_window_average series_100_90_80 2 H)
    as (r & Hr & Havg).
  exists r. split; [exact Hr|]. rewrite Havg. vm_compute. reflexivity.
Defined.

(** X18. On a non-empty frame the current daily cost is the last value of
    the series and lies between the reported minimum and maximum, which
    bound every daily value. *)
Theorem calculate_trends_min_current_max :
  forall (cost_data : DataFrame) (window : Z),
    cost_data <> [] -> 0 <= window ->
    exists r lo cur hi,
      DataProcessor.calculate_trends cost_data window = Some r /\
      Trends.min_daily_cost r = Fin lo /\
      Trends.current_daily_cost r = Fin cur /\
      Trends.max_daily_cost r = Fin hi /\
      (lo <= cur <= hi)%Q /\
      Forall (fun v => (lo <= v <= hi)%Q)
             (values (daily_sum Observation.cost cost_data)).
Proof.
  intros cost_data window Hne Hw.
  destruct (calculate_trends_returns cost_data window Hne Hw)
    as (first & last & l & avg & _ & Hl & _ & _ & Hr).
  pose proof (iloc_last_In _ _ Hl) as Hin.
  destruct (values (daily_sum Observation.cost cost_data)) as [|c cs] eqn:E;
    [contradiction|].
  destruct (py_min_spec c cs) as (Hmin0 & Hmin & _).
  destruct (py_max_spec c cs) as (Hmax0 & Hmax & _).
  assert (Hbounds : Forall (fun x => (py_min c cs <= x <= py_max c cs)%Q)
                           (c :: cs)).
  { constructor; [split; assumption|].
    rewrite Forall_forall in *. intros x Hx. split; auto. }
  eexists. exists (py_min c cs), last, (py_max c cs).
  split; [exact Hr|].
  cbn [Trends.min_daily_cost Trends.current_daily_cost Trends.max_daily_cost].
  repeat (split; [reflexivity|]).
  split; [|exact Hbounds].
  rewrite Forall_forall in Hbounds. apply Hbounds, Hin.
Qed.

Lemma calculate_trends_min_current_max_witness :
  (series_100_90_80 <> [] /\ 0 <= 7) /\
  exists r,
    DataProcessor.calculate_trends series_100_90_80 7 = Some r /\
    same_value (Trends.min_daily_cost r) (Fin 80) /\
    same_value (Trends.current_daily_cost r) (Fin 80) /\
    same_value (Trends.max_daily_cost r) (Fin 100).
Proof.
  split; [split; [discriminate | lia]|].
  destruct (calculate_trends_min_current_max series_100_90_80 7)
    as (r & lo & cur & hi & Hr & _); [discriminate | lia |].
  exists r. split; [exact Hr|].
  vm_compute in Hr. injection Hr as <-. repeat split.
Defined.

(** ** The IQR rule on a constant series *)

Lemma insert_sorted_Forall (P : Q -> Prop) (x : Q) (xs : list Q) :
  P x -> Forall P xs -> Forall P (insert_sorted x xs).
Proof.
  intros Hx Hall. induction Hall as [|y rest Hy Hrest IH]; cbn [insert_sorted].
  - repeat constructor. exact Hx.
  - destruct (Qle_bool x y); repeat constructor; assumption.
Qed.

Lemma np_sort_Forall (P : Q -> Prop) (xs : list Q) :
  Forall P xs -> Forall P (np_sort xs).
Proof.
  induction 1 as [|x rest Hx _ IH]; cbn [np_sort fold_right].
  - constructor.
  - apply insert_sorted_Forall; assumption.
Qed.

Lemma insert_sorted_length (x : Q) (xs : list Q) :
  length (insert_sorted x xs) = S (length xs).
Proof.
  induction xs as [|y rest IH]; cbn [insert_sorted]; [reflexivity|].
  destruct (Qle_bool x y); cbn [length]; [reflexivity | now rewrite IH].
Qed.

Lemma np_sort_length (xs : list Q) : length (np_sort xs) = length xs.
Proof.
  induction xs as [|x rest IH]; cbn [np_sort fold_right length];
    [reflexivity|].
  fold (np_sort rest). now rewrite insert_sorted_length, IH.
Qed.

(** Every percentile of a non-empty constant array is the constant. *)
Lemma np_percentile_constant (c q : Q) (xs : list Q) :
  xs <> [] -> (0 <= q <= 100)%Q ->
  Forall (fun x => (x == c)%Q) xs ->
  exists p, np_percentile xs q = Fin p /\ (p == c)%Q.
Proof.
  intros Hne [Hq0 Hq100] Hall.
  pose proof (np_sort_Forall _ _ Hall) as Hsorted.
  assert (Hn : (0 < length xs)%nat)
    by (destruct xs; [congruence | cbn; lia]).
  unfold np_percentile. destruct xs as [|x0 rest] eqn:E; [congruence|].
  rewrite <- E in *. clear E.
  set (n := length xs) in *.
  set (pos := ((inject_Z (Z.of_nat n) - 1) * q / 100)%Q).
  assert (Hpos : (pos <= inject_Z (Z.of_nat n - 1))%Q).
  { unfold pos. unfold Z.sub. rewrite inject_Z_plus.
    change (inject_Z (- (1))) with (- (1))%Q.
    assert (H1 : (0 <= inject_Z (Z.of_nat n) - 1)%Q).
    { assert (H : (inject_Z 1 <= inject_Z (Z.of_nat n))%Q)
        by (rewrite <- Zle_Qle; lia).
      change (inject_Z 1) with 1%Q in H. lra. }
    assert (H2 : ((inject_Z (Z.of_nat n) - 1) * q
                  <= (inject_Z (Z.of_nat n) - 1) * 100)%Q).
    { rewrite !(Qmult_comm (inject_Z (Z.of_nat n) - 1)).
      apply Qmult_le_compat_r; assumption. }
    apply Qle_shift_div_r; [reflexivity|]. lra. }
  assert (Hfloor : Qfloor pos <= Z.of_nat n - 1).
  { rewrite <- (Qfloor_Z (Z.of_nat n - 1)). apply Qfloor_resp_le, Hpos. }
  assert (Hlo : (Z.to_nat (Qfloor pos) < length (np_sort xs))%nat)
    by (rewrite np_sort_length; fold n; lia).
  assert (Hhi : (Nat.min (S (Z.to_nat (Qfloor pos))) (n - 1)
                 < length (np_sort xs))%nat)
    by (rewrite np_sort_length; fold n; lia).
  pose proof (proj1 (Forall_nth _ _) Hsorted _ 0%Q Hlo) as Ha.
  pose proof (proj1 (Forall_nth _ _) Hsorted _ 0%Q Hhi) as Hb.
  cbv beta in Ha, Hb.
  eexists. split; [reflexivity|].
  fold pos. rewrite Ha, Hb. ring.
Qed.

Lemma iqr_indices_constant (c : Q) (costs : list Q) :
  Forall (fun x => (x == c)%Q) costs -> iqr_indices costs = [].
Proof.
  intro Hall. destruct costs as [|x0 rest] eqn:E; [reflexivity|].
  rewrite <- E in *. assert (Hne : costs <> []) by (subst; discriminate).
  clear E. unfold iqr_indices.
  destruct (np_percentile_constant c 25 costs Hne) as (p1 & -> & Hp1);
    [split; [vm_compute | vm_compute]; discriminate | exact Hall |].
  destruct (np_percentile_constant c 75 costs Hne) as (p3 & -> & Hp3);
    [split; [vm_compute | vm_compute]; discriminate | exact Hall |].
  cbv zeta. unfold np_where. apply where_from_all_false.
  rewrite Forall_map. eapply Forall_impl; [|exact Hall].
  intros v Hv. cbv beta.
  unfold fsub, fneg, fmul, fadd, fgt, flt.
  apply orb_false_iff. split; apply Qltb_false_iff; rewrite Hv, Hp1, Hp3;
    intro Hlt; ring_simplify in Hlt; exact (Qlt_irrefl _ Hlt).
Qed.

(** X19. When every day has the same total cost, the "iqr" method reports
    no anomaly, and neither does any method other than "zscore" and "iqr"
    when scikit-learn is absent, since it falls back to the IQR rule. *)
Theorem iqr_constant_series_no_anomalies :
  forall (rt : Runtime) (cost_data : DataFrame) (method : string)
         (contamination c : Q),
    Forall (fun v => (v == c)%Q)
           (values (daily_sum Observation.cost cost_data)) ->
    String.eqb method "zscore" = false ->
    String.eqb method "iqr" = true \/ IsolationForest = None ->
    AdvancedAnalytics.detect_cost_anomalies_advanced
      cost_data method contamination = [].
Proof.
  intros rt cost_data method contamination c Hconst Hz Hcase.
  unfold AdvancedAnalytics.detect_cost_anomalies_advanced,
         AdvancedAnalytics.detect_cost_anomalies_advanced_body.
  destruct cost_data as [|o rest]; cbn [empty]; [reflexivity|].
  rewrite Hz. rewrite (iqr_indices_constant c _ Hconst).
  destruct (String.eqb method "iqr"); [reflexivity|].
  destruct Hcase as [Hc|Hnone]; [discriminate|].
  rewrite Hnone. reflexivity.
Qed.

(** Thirty days of cost 100, under "iqr" and, without scikit-learn, under
    "isolation_forest". *)
Lemma iqr_constant_series_no_anomalies_witness :
  Forall (fun v => (v == 100)%Q)
         (values (daily_sum Observation.cost constant_30)) /\
  @AdvancedAnalytics.detect_cost_anomalies_advanced sample_runtime
    constant_30 "iqr" 0.1 = [] /\
  @AdvancedAnalytics.detect_cost_anomalies_advanced sample_runtime
    constant_30 "isolation_forest" 0.1 = [].
Proof.
  assert (H : Forall (fun v => (v == 100)%Q)
                     (values (daily_sum Observation.cost constant_30))).
  { vm_compute. repeat (constructor; [reflexivity|]). constructor. }
  split; [exact H|]. split.
  - apply (iqr_constant_series_no_anomalies sample_runtime constant_30
             "iqr" 0.1 100 H); [reflexivity | left; reflexivity].
  - apply (iqr_constant_series_no_anomalies sample_runtime constant_30
             "isolation_forest" 0.1 100 H); [reflexivity | right; reflexivity].
Defined.
